(** * ha-chescofire: the dispatch-page scraper of [run.py]

    A shallow embedding of [run.py] and the properties of its incident
    scanner, unit extractor, municipality filter and poll cycle.

    Conventions of the model.
    - A Python [str] is a Rocq [string]; a character is its code point, and
      the text is taken in the range 0..255, where the classes the program
      uses are: [\d] = '0'..'9', white space (of [str.strip], [str.split]) =
      U+0009..U+000D, U+001C..U+0020, U+0085, U+00A0, and [str.lower] maps
      'A'..'Z' and U+00C0..U+00DE (but U+00D7) to the letter 32 places up.
    - The network, the clock and the message bus are an environment
      ([World]) that answers as a function of the events so far; every call
      to them is recorded in the event trace.
    - [requests] and [BeautifulSoup] are the boundary: a fetched page is the
      anchors and the text that [find_all("a")] and
      [get_text("\n", strip=True)] give.  [print] calls are left out. *)

From Stdlib Require Import ZArith Lia String Ascii List Bool.
From stdpp Require Import base list gmap strings.

Open Scope string_scope.
Open Scope list_scope.

(** ** Python strings *)

Module PyStr.

Definition code (c : ascii) : N := N_of_ascii c.

Definition in_range (lo hi : N) (c : ascii) : bool :=
  ((lo <=? code c) && (code c <=? hi))%N.

(** [str.isspace] on one character. *)
Definition isspace (c : ascii) : bool :=
  in_range 9 13 c || in_range 28 32 c
  || (code c =? 133)%N || (code c =? 160)%N.

(** The class [\d]. *)
Definition isdigit (c : ascii) : bool := in_range 48 57 c.

(** The class [[A-Z]]. *)
Definition isupper_AZ (c : ascii) : bool := in_range 65 90 c.

Definition lower_char (c : ascii) : ascii :=
  if in_range 65 90 c
     || (in_range 192 222 c && negb (code c =? 215)%N)
  then ascii_of_N (code c + 32)
  else c.

(** [s.lower()] *)
Fixpoint lower (s : string) : string :=
  match s with
  | EmptyString => EmptyString
  | String c r => String (lower_char c) (lower r)
  end.

(** [s.lstrip()] *)
Fixpoint lstrip (s : string) : string :=
  match s with
  | EmptyString => EmptyString
  | String c r => if isspace c then lstrip r else s
  end.

(** [s.rstrip()] *)
Fixpoint rstrip (s : string) : string :=
  match s with
  | EmptyString => EmptyString
  | String c r =>
      match rstrip r with
      | EmptyString => if isspace c then EmptyString else String c EmptyString
      | r' => String c r'
      end
  end.

(** [s.strip()] *)
Definition strip (s : string) : string := rstrip (lstrip s).

(** [s.startswith(p)] *)
Definition startswith (p s : string) : bool := String.prefix p s.

(** [sub in s] *)
Fixpoint contains (sub s : string) : bool :=
  String.prefix sub s
  || match s with
     | EmptyString => false
     | String _ r => contains sub r
     end.

(** [s.partition(sep)[0]] for a one-character [sep]: the text before the
    first [sep], the whole of [s] when there is none. *)
Fixpoint before (sep : ascii) (s : string) : string :=
  match s with
  | EmptyString => EmptyString
  | String c r => if Ascii.eqb c sep then EmptyString else String c (before sep r)
  end.

(** [s.split()]: the maximal runs of characters that are not white
    space. *)
Fixpoint split (s : string) : list string :=
  match s with
  | EmptyString => []
  | String c r =>
      if isspace c then split r
      else match r with
           | EmptyString => [String c EmptyString]
           | String d _ =>
               if isspace d then String c EmptyString :: split r
               else match split r with
                    | t :: ts => String c t :: ts
                    | [] => [String c EmptyString]
                    end
           end
  end.

(** A line boundary of [str.splitlines]. *)
Definition islinebreak (c : ascii) : bool :=
  in_range 10 13 c || in_range 28 30 c || (code c =? 133)%N.

(** [s.splitlines()], with the line being read in [cur]; a carriage
    return followed by a line feed is one boundary, and no empty line is
    added after a final boundary. *)
Fixpoint splitlines_from (cur : string) (s : string) : list string :=
  match s with
  | EmptyString => if String.eqb cur "" then [] else [cur]
  | String c r =>
      if islinebreak c then
        match r with
        | String d r' =>
            if (code c =? 13)%N && (code d =? 10)%N
            then cur :: splitlines_from "" r'
            else cur :: splitlines_from "" r
        | EmptyString => [cur]
        end
      else splitlines_from (cur +:+ String c "") r
  end.

Definition splitlines (s : string) : list string := splitlines_from "" s.

End PyStr.

(** ** The two regular expressions of the scanner *)

Module PyRe.

Import PyStr.

(** [$] without [re.MULTILINE]: the end of the string, or the position
    before a line feed that ends it. *)
Definition at_dollar (s : string) : bool :=
  String.eqb s "" || String.eqb s (String (ascii_of_N 10) "").

(** One character of each class of [pat] in turn; the text left over. *)
Fixpoint match_classes (pat : list (ascii -> bool)) (s : string) : option string :=
  match pat with
  | [] => Some s
  | p :: pat' =>
      match s with
      | EmptyString => None
      | String c r => if p c then match_classes pat' r else None
      end
  end.

(** [\d*] taken greedily; the text left over. *)
Fixpoint skip_digits (s : string) : string :=
  match s with
  | EmptyString => EmptyString
  | String c r => if isdigit c then skip_digits r else s
  end.

(** [re.compile(r"^[A-Z]\d+$").match(line)] *)
Definition id_re_match (line : string) : bool :=
  match match_classes [isupper_AZ; isdigit] line with
  | Some r => at_dollar (skip_digits r)
  | None => false
  end.

Definition is_char (c : ascii) : ascii -> bool := Ascii.eqb c.

(** The classes of [\d{2}-\d{2}-\d{4} \d{2}:\d{2}:\d{2}]. *)
Definition ts_classes : list (ascii -> bool) :=
  [isdigit; isdigit; is_char "-"; isdigit; isdigit; is_char "-";
   isdigit; isdigit; isdigit; isdigit; is_char " ";
   isdigit; isdigit; is_char ":"; isdigit; isdigit; is_char ":";
   isdigit; isdigit].

(** [re.match(r"^\d{2}-\d{2}-\d{4} \d{2}:\d{2}:\d{2}$", ts_str)] *)
Definition ts_re_match (ts_str : string) : bool :=
  match match_classes ts_classes ts_str with
  | Some r => at_dollar r
  | None => false
  end.

End PyRe.

(** ** Dates and times *)

Module PyDatetime.

Import PyStr.

(** A [datetime] by its wall-clock fields.  Every [datetime] of the program
    carries the one [ZoneInfo("America/New_York")] object, and Python
    compares and subtracts two such values by their wall-clock fields. *)
Record datetime := {
  year : Z; month : Z; day : Z;
  hour : Z; minute : Z; second : Z; microsecond : Z
}.

Definition is_leap (y : Z) : bool :=
  ((y mod 4 =? 0) && (negb (y mod 100 =? 0) || (y mod 400 =? 0)))%Z.

Definition days_in_month (y m : Z) : Z :=
  (if m =? 2 then (if is_leap y then 29 else 28)
   else if (m =? 4) || (m =? 6) || (m =? 9) || (m =? 11) then 30
   else 31)%Z.

(** Days of the year before the first of month [m]. *)
Definition days_before_month (y m : Z) : Z :=
  (nth (Z.to_nat (m - 1)) [0; 31; 59; 90; 120; 151; 181; 212; 243; 273; 304; 334] 0
   + (if (2 <? m) && is_leap y then 1 else 0))%Z.

(** Days before the first of January of year [y]. *)
Definition days_before_year (y : Z) : Z :=
  (let p := y - 1 in p * 365 + p / 4 - p / 100 + p / 400)%Z.

(** [date.toordinal()]: 1 for 0001-01-01. *)
Definition ymd2ord (y m d : Z) : Z :=
  (days_before_year y + days_before_month y m + d)%Z.

(** Microseconds of wall-clock time from 0001-01-01 00:00:00. *)
Definition to_us (t : datetime) : Z :=
  (((((ymd2ord (year t) (month t) (day t) - 1) * 24 + hour t) * 60 + minute t) * 60
     + second t) * 1000000 + microsecond t)%Z.

(** [a < b] on two [datetime]s with the same [tzinfo]. *)
Definition dt_lt (a : datetime) (b_us : Z) : bool := (to_us a <? b_us)%Z.

(** [timedelta(hours=8)] in microseconds. *)
Definition eight_hours : Z := (8 * 3600 * 1000000)%Z.

Definition digit (c : ascii) : Z := (Z.of_N (code c) - 48)%Z.

Definition num2 (a b : ascii) : Z := (digit a * 10 + digit b)%Z.

Definition num4 (a b c d : ascii) : Z :=
  (((digit a * 10 + digit b) * 10 + digit c) * 10 + digit d)%Z.

(** [datetime(y, m, d, H, M, S)], which raises [ValueError] out of range. *)
Definition make_datetime (y m d H M S : Z) : option datetime :=
  if ((1 <=? y) && (y <=? 9999) && (1 <=? m) && (m <=? 12)
      && (1 <=? d) && (d <=? days_in_month y m)
      && (0 <=? H) && (H <=? 23) && (0 <=? M) && (M <=? 59)
      && (0 <=? S) && (S <=? 59))%Z
  then Some {| year := y; month := m; day := d;
               hour := H; minute := M; second := S; microsecond := 0 |}
  else None.

(** [datetime.strptime(ts_str, "%m-%d-%Y %H:%M:%S")] on a text of nineteen
    characters, two digits to a field and four to the year, which is what
    the scanner hands it; [None] is [ValueError].  (A seconds field of 60 or
    61 passes the format and fails in the [datetime] constructor.) *)
Definition strptime (ts_str : string) : option datetime :=
  match list_ascii_of_string ts_str with
  | [m1; m2; _; d1; d2; _; y1; y2; y3; y4; _; H1; H2; _; M1; M2; _; S1; S2] =>
      if PyRe.ts_re_match ts_str
      then make_datetime (num4 y1 y2 y3 y4) (num2 m1 m2) (num2 d1 d2)
                         (num2 H1 H2) (num2 M1 M2) (num2 S1 S2)
      else None
  | _ => None
  end.

End PyDatetime.

Import PyStr PyRe PyDatetime.

(** ** Data model *)

(** The [incident] dictionary of [get_incidents].  [inc_timestamp] is the
    parsed time whose [isoformat()] the dictionary holds. *)
Record incident := {
  inc_timestamp : datetime;
  inc_id : string;
  inc_location : string;
  inc_municipality : string;
  inc_type : string;
  inc_category : string;
  inc_station : string;
  inc_description : string;
  inc_raw_timestamp : string;
  inc_comments_url : string;
  inc_units_on_scene : list string
}.

(** The [payload] dictionary of [main_loop]. *)
Record payload := {
  last_update : datetime;
  total_incidents : nat;
  filtered_incidents : nat;
  incidents : list incident
}.

(** A fetched page as [BeautifulSoup] shows it: for every [a] element in
    document order its [get_text(strip=True)] and its [get("href") or ""],
    and the [get_text("\n", strip=True)] of the document. *)
Record page := {
  anchors : list (string * string);
  text : string
}.

(** The response of [requests.get]. *)
Record response := {
  status_code : Z;
  body : page
}.

(** The settings read from the process environment. *)
Record Config := {
  TARGET_FILTERS : gset string;
  MQTT_HOST : string;
  MQTT_PORT : Z;
  MQTT_USERNAME : string;
  MQTT_PASSWORD : string;
  MQTT_TOPIC : string;
  POLL_INTERVAL : Z
}.

Definition URL : string := "https://webcad.chesco.org/WebCad/webcad.asp".

(** [s.split(",")] *)
Fixpoint split_comma_from (cur : string) (s : string) : list string :=
  match s with
  | EmptyString => [cur]
  | String c r =>
      if Ascii.eqb c "," then cur :: split_comma_from "" r
      else split_comma_from (cur +:+ String c "") r
  end.

(** The set comprehension that builds [TARGET_FILTERS] from the text of the
    environment variable. *)
Definition target_filters_of (env : string) : gset string :=
  list_to_set
    (List.map strip
       (List.filter (fun f => negb (String.eqb (strip f) ""))
          (split_comma_from "" env))).

(** ** Effects: exceptions, the event trace and the environment *)

Inductive exn := OSError | OtherException.

(** What a call gives: a value, an exception, or no answer within the fuel
    of a loop. *)
Inductive res (A : Type) :=
| Val (a : A)
| Exc (e : exn)
| Timeout.

Arguments Val {A} a.
Arguments Exc {A} e.
Arguments Timeout {A}.

Inductive event :=
| EvGet (url : string)
| EvNow
| EvUsernamePwSet (username password : string)
| EvConnect (host : string) (port : Z)
| EvPublish (topic : string) (p : payload) (retain : bool)
| EvDisconnect
| EvSleep (seconds : Z).

(** What [requests.get] does: it returns a response or raises. *)
Inductive reply :=
| Reply (r : response)
| Failed (e : exn).

(** The environment: what the network, the clock and the message bus answer
    after the events so far, and [urllib.parse.urljoin]. *)
Record World := {
  http_get : list event -> string -> reply;
  clock : list event -> datetime;
  mqtt_connect : list event -> option exn;
  mqtt_publish : list event -> option exn;
  mqtt_disconnect : list event -> option exn;
  urljoin : string -> string -> string
}.

Definition M (A : Type) : Type := list event -> res A * list event.

Definition ret {A} (a : A) : M A := fun h => (Val a, h).

Definition raise {A} (e : exn) : M A := fun h => (Exc e, h).

Definition bind {A B} (m : M A) (k : A -> M B) : M B :=
  fun h =>
    match m h with
    | (Val a, h') => k a h'
    | (Exc e, h') => (Exc e, h')
    | (Timeout, h') => (Timeout, h')
    end.

Notation "'let*' x ':=' m 'in' k" := (bind m (fun x => k))
  (at level 10, x name, m at level 100, k at level 200).

(** [try: m  except Exception as e: handler e] *)
Definition try_except {A} (m : M A) (handler : exn -> M A) : M A :=
  fun h =>
    match m h with
    | (Exc e, h') => handler e h'
    | r => r
    end.

(** An environment call that may raise. *)
Definition call (ev : event) (outcome : list event -> option exn) : M unit :=
  fun h =>
    match outcome h with
    | None => (Val tt, h ++ [ev])
    | Some e => (Exc e, h ++ [ev])
    end.

(** ** The program *)

(** [[l for l in text.splitlines() if l.strip()]] *)
Definition nonblank_lines (text : string) : list string :=
  List.filter (fun l => negb (String.eqb (strip l) "")) (splitlines text).

(** [lines[i]]; the scanner reads it only below [len(lines)]. *)
Definition line_at (lines : list string) (i : nat) : string :=
  default "" (lines !! i).

(** [current_category or 'UNKNOWN'] *)
Definition or_unknown (current_category : option string) : string :=
  match current_category with
  | Some c => if String.eqb c "" then "UNKNOWN" else c
  | None => "UNKNOWN"
  end.

(** One turn of the loop over the comment lines in [get_units_on_scene]. *)
Definition units_step (units : list string) (line : string) : list string :=
  let line_stripped := strip line in
  let line_lower := lower line_stripped in
  if negb (contains "scene" line_lower) then units
  else if negb (contains ">" line_stripped) then units
  else
    let tokens := split (before ">" line_stripped) in
    match last tokens with
    | None => units
    | Some t =>
        let unit := strip t in
        if negb (String.eqb unit "") && negb (existsb (String.eqb unit) units)
        then units ++ [unit]
        else units
    end.

(** The loop over the comment lines: [units = []; for line in lines: ...]. *)
Definition units_of_lines (lines : list string) : list string :=
  fold_left units_step lines [].

(** The loop over the anchors that builds [incident_links]. *)
Definition links_step (base : string -> string -> string)
    (incident_links : gmap string string) (a : string * string) : gmap string string :=
  let '(text, href) := a in
  if String.eqb text "" || String.eqb href "" then incident_links
  else if contains "livecadcomments" (lower href)
       then <[text := base URL href]> incident_links
       else incident_links.

Definition links_of_anchors (base : string -> string -> string)
    (anchors : list (string * string)) : gmap string string :=
  fold_left (links_step base) anchors ∅.

(** [now - timedelta(hours=8)], as microseconds of wall-clock time. *)
Definition cutoff_of (now : datetime) : Z := (to_us now - eight_hours)%Z.

(** The variables of the scanning loop. *)
Record scan_state := {
  cursor : nat;
  current_category : option string;
  found : list incident
}.

(** How a turn of the scanning loop ends: with the variables for the next
    turn, or by [break]. *)
Inductive flow :=
| Continue (st : scan_state)
| Break.

(** The loop of [filter_incidents]. *)
Definition keep_step (filters : gset string) (filtered : list incident) (inc : incident)
    : list incident :=
  if existsb (fun key => contains key (inc_municipality inc)) (elements filters)
  then filtered ++ [inc]
  else filtered.

(** How [main_loop]'s [try] block ends: by falling through to the final
    [sleep], or by the [continue] of the connection handler. *)
Inductive turn_end := FellThrough | Continued.

Section Program.

Variable w : World.
Variable cfg : Config.

(** [requests.get(url, timeout=30, headers=...)] *)
Definition requests_get (url : string) : M response :=
  fun h =>
    match http_get w h url with
    | Reply r => (Val r, h ++ [EvGet url])
    | Failed e => (Exc e, h ++ [EvGet url])
    end.

(** [r.raise_for_status()]: an [HTTPError] for a status from 400 to 599. *)
Definition raise_for_status (r : response) : M unit :=
  if ((400 <=? status_code r) && (status_code r <? 600))%Z
  then raise OSError
  else ret tt.

(** [datetime.now(ZoneInfo("America/New_York"))] *)
Definition datetime_now : M datetime :=
  fun h => (Val (clock w h), h ++ [EvNow]).

(** [time.sleep(seconds)] *)
Definition sleep (seconds : Z) : M unit :=
  fun h => (Val tt, h ++ [EvSleep seconds]).

(** The guarded fetch that opens [get_incidents] and [get_units_on_scene]:
    the page, or [None] where the [except] branch is taken. *)
Definition try_fetch (url : string) : M (option page) :=
  try_except
    (let* r := requests_get url in
     let* _ := raise_for_status r in
     ret (Some (body r)))
    (fun _ => ret None).

Definition get_units_on_scene (comments_url : string) : M (list string) :=
  if String.eqb comments_url "" then ret []
  else
    let* r := try_fetch comments_url in
    match r with
    | None => ret []
    | Some soup => ret (units_of_lines (nonblank_lines (text soup)))
    end.

(** One turn of the body of [while i < len(lines)] in [get_incidents]. *)
Definition scan_step (lines : list string) (incident_links : gmap string string)
    (cutoff : Z) (st : scan_state) : M flow :=
  let i := cursor st in
  let line := line_at lines i in
  let skip := {| cursor := i + 1; current_category := current_category st;
                 found := found st |} in
  let enter c := {| cursor := i + 1; current_category := Some c;
                    found := found st |} in
  if String.eqb line "Fire Incidents" then ret (Continue (enter "FIRE"))
  else if String.eqb line "EMS Incidents" then ret (Continue (enter "EMS"))
  else if String.eqb line "Traffic Incidents" then ret (Continue (enter "TRAFFIC"))
  else if startswith "Incident No." line || startswith "Last Updated" line
  then ret (Continue skip)
  else if negb (id_re_match line) then ret (Continue skip)
  else if (length lines <=? i + 5)%nat then ret Break
  else
    let incident_id := strip (line_at lines i) in
    let incident_type := strip (line_at lines (i + 1)) in
    let location := strip (line_at lines (i + 2)) in
    let municipality := strip (line_at lines (i + 3)) in
    let ts_str := strip (line_at lines (i + 4)) in
    let station := strip (line_at lines (i + 5)) in
    let past := {| cursor := i + 6; current_category := current_category st;
                   found := found st |} in
    if negb (ts_re_match ts_str) then ret (Continue past)
    else
      match strptime ts_str with
      | None => ret (Continue past)
      | Some dt =>
          if dt_lt dt cutoff then ret (Continue past)
          else
            let description :=
              location +:+ " | " +:+ municipality +:+ " | " +:+ incident_type
              +:+ " | " +:+ or_unknown (current_category st) +:+ " | Stn " +:+ station in
            let category := or_unknown (current_category st) in
            let comments_url := default "" (incident_links !! incident_id) in
            let* units_on_scene := get_units_on_scene comments_url in
            let incident :=
              {| inc_timestamp := dt;
                 inc_id := incident_id;
                 inc_location := location;
                 inc_municipality := municipality;
                 inc_type := incident_type;
                 inc_category := category;
                 inc_station := station;
                 inc_description := description;
                 inc_raw_timestamp := ts_str;
                 inc_comments_url := comments_url;
                 inc_units_on_scene := units_on_scene |} in
            ret (Continue {| cursor := i + 6;
                             current_category := current_category st;
                             found := found st ++ [incident] |})
      end.

(** [while i < len(lines): ...], at most [fuel] turns of it; the list
    [incidents] when the loop is left. *)
Fixpoint scan_loop (lines : list string) (incident_links : gmap string string)
    (cutoff : Z) (fuel : nat) (st : scan_state) : M (list incident) :=
  if (cursor st <? length lines)%nat then
    match fuel with
    | O => fun h => (Timeout, h)
    | S fuel' =>
        let* r := scan_step lines incident_links cutoff st in
        match r with
        | Continue st' => scan_loop lines incident_links cutoff fuel' st'
        | Break => ret (found st)
        end
    end
  else ret (found st).

Definition scan_start : scan_state :=
  {| cursor := 0; current_category := None; found := [] |}.

(** The loop is given as many turns as there are lines. *)
Definition get_incidents : M (list incident) :=
  let* r := try_fetch URL in
  match r with
  | None => ret []
  | Some soup =>
      let incident_links := links_of_anchors (urljoin w) (anchors soup) in
      let lines := nonblank_lines (text soup) in
      let* now := datetime_now in
      let cutoff := cutoff_of now in
      scan_loop lines incident_links cutoff (length lines) scan_start
  end.

Definition filter_incidents (incidents : list incident) : list incident :=
  if bool_decide (TARGET_FILTERS cfg = ∅) then incidents
  else fold_left (keep_step (TARGET_FILTERS cfg)) incidents [].

(** The [try] block of one turn of [while True] in [main_loop]. *)
Definition cycle_body : M turn_end :=
  let* connected :=
    try_except
      (let* _ := call (EvConnect (MQTT_HOST cfg) (MQTT_PORT cfg)) (mqtt_connect w) in
       ret true)
      (fun e =>
         match e with
         | OSError => let* _ := sleep (POLL_INTERVAL cfg) in ret false
         | _ => raise e
         end) in
  if connected then
    let* all_incidents := get_incidents in
    let my_incidents := filter_incidents all_incidents in
    let* now := datetime_now in
    let payload :=
      {| last_update := now;
         total_incidents := length all_incidents;
         filtered_incidents := length my_incidents;
         incidents := my_incidents |} in
    let* _ := call (EvPublish (MQTT_TOPIC cfg) payload true) (mqtt_publish w) in
    let* _ := call EvDisconnect (mqtt_disconnect w) in
    ret FellThrough
  else ret Continued.

(** One turn of [while True]. *)
Definition poll_cycle : M unit :=
  let* e := try_except cycle_body (fun _ => ret FellThrough) in
  match e with
  | FellThrough => sleep (POLL_INTERVAL cfg)
  | Continued => ret tt
  end.

(** The first [n] turns of [while True]. *)
Fixpoint poll_cycles (n : nat) : M unit :=
  match n with
  | O => ret tt
  | S n' => let* _ := poll_cycle in poll_cycles n'
  end.

(** [main_loop], cut after [n] turns of its endless loop. *)
Definition main_loop (n : nat) : M unit :=
  let* _ := (if String.eqb (MQTT_USERNAME cfg) "" then ret tt
        else fun h =>
               (Val tt, h ++ [EvUsernamePwSet (MQTT_USERNAME cfg) (MQTT_PASSWORD cfg)])) in
  poll_cycles n.

End Program.

(** ** Definitions used to state the properties *)

(** The variables of the scanning loop with the event trace: one point of
    a run. *)
Definition config : Type := scan_state * list event.

(** The scanner reads [line] as a section header. *)
Definition header_category (line : string) : option string :=
  if String.eqb line "Fire Incidents" then Some "FIRE"
  else if String.eqb line "EMS Incidents" then Some "EMS"
  else if String.eqb line "Traffic Incidents" then Some "TRAFFIC"
  else None.

(** Turns of the scanning loop, one after the other, none of which starts
    on a section-header line. *)
Inductive quiet_run (w : World) (lines : list string)
    (incident_links : gmap string string) (cutoff : Z) : config -> config -> Prop :=
| quiet_refl c : quiet_run w lines incident_links cutoff c c
| quiet_turn st h st1 h1 c :
    header_category (line_at lines (cursor st)) = None ->
    scan_step w lines incident_links cutoff st h = (Val (Continue st1), h1) ->
    quiet_run w lines incident_links cutoff (st1, h1) c ->
    quiet_run w lines incident_links cutoff (st, h) c.

(** The fetch of [url] fails after the events [h]: [requests.get] raises, or
    the status makes [raise_for_status] raise. *)
Definition fetch_fails (w : World) (h : list event) (url : string) : Prop :=
  match http_get w h url with
  | Reply r => (400 <= status_code r < 600)%Z
  | Failed _ => True
  end.

(** [key] occurs in [s] as a run of consecutive characters. *)
Definition is_substring (key s : string) : Prop :=
  exists pre post : string, s = pre +:+ key +:+ post.

(** The municipality of [inc] contains one of the configured texts. *)
Definition municipality_matches (filters : gset string) (inc : incident) : Prop :=
  exists key : string, key ∈ filters /\ is_substring key (inc_municipality inc).

(** One of the four categories. *)
Definition known_category (c : string) : Prop :=
  In c ["FIRE"; "EMS"; "TRAFFIC"; "UNKNOWN"].

(** What holds of the variables of the scanning loop at every turn. *)
Definition scan_invariant (st : scan_state) : Prop :=
  (current_category st = None
   \/ exists c, current_category st = Some c /\ In c ["FIRE"; "EMS"; "TRAFFIC"])
  /\ Forall (fun inc => known_category (inc_category inc)) (found st).

(** The payloads handed to [client.publish] in a trace, in order. *)
Definition published (trace : list event) : list payload :=
  omap (fun e => match e with EvPublish _ p _ => Some p | _ => None end) trace.

(** The counts of [p] agree with its list, which is what the filter keeps of
    a list that [get_incidents] returned. *)
Definition payload_consistent (w : World) (cfg : Config) (p : payload) : Prop :=
  filtered_incidents p = length (incidents p)
  /\ (filtered_incidents p <= total_incidents p)%nat
  /\ exists all h h',
       get_incidents w h = (Val all, h')
       /\ total_incidents p = length all
       /\ incidents p = filter_incidents cfg all
       /\ incidents p `sublist_of` all.

(** *** The unit extractor in the specification's words *)

(** [p] starts [s], letters compared without regard to case. *)
Fixpoint prefix_ci (p s : string) : bool :=
  match p, s with
  | EmptyString, _ => true
  | String _ _, EmptyString => false
  | String a p', String b s' =>
      Ascii.eqb (lower_char a) (lower_char b) && prefix_ci p' s'
  end.

(** [s] contains [p], letters compared without regard to case. *)
Fixpoint contains_ci (p s : string) : bool :=
  prefix_ci p s
  || match s with
     | EmptyString => false
     | String _ r => contains_ci p r
     end.

(** The unit a line names: for a line that mentions "scene" in any case and
    has a [>], the last white-space-separated token before the first [>]. *)
Definition spec_unit_of (line : string) : option string :=
  if contains_ci "scene" line && contains ">" line
  then last (split (before ">" line))
  else None.

(** No character of [p] is white space, in either case. *)
Fixpoint no_space_ci (p : string) : bool :=
  match p with
  | EmptyString => true
  | String a p' => negb (isspace (lower_char a)) && no_space_ci p'
  end.

(** No character of [t] is white space. *)
Fixpoint no_space (t : string) : bool :=
  match t with
  | EmptyString => true
  | String c r => negb (isspace c) && no_space r
  end.

(** [unit not in units] and [units.append(unit)] in one. *)
Definition add_unit (units : list string) (unit : string) : list string :=
  if existsb (String.eqb unit) units then units else units ++ [unit].

(** Duplicates removed, the first occurrence of each text kept in place. *)
Fixpoint dedup_first (l : list string) : list string :=
  match l with
  | [] => []
  | x :: r => x :: List.filter (fun y => negb (String.eqb x y)) (dedup_first r)
  end.

Definition spec_units (lines : list string) : list string :=
  dedup_first (omap spec_unit_of lines).

(** *** What a scan returns *)

(** [inc] is what the scanner builds from the six lines at [i]: the line at
    [i] has the ID shape, the fields are the lines trimmed, and the time
    stamp has the strict shape, parses to the time of [inc] and is not
    older than [cutoff]. *)
Definition from_block (lines : list string) (cutoff : Z) (i : nat) (inc : incident)
    : Prop :=
  (i + 5 < length lines)%nat
  /\ id_re_match (line_at lines i) = true
  /\ inc_id inc = strip (line_at lines i)
  /\ inc_type inc = strip (line_at lines (i + 1))
  /\ inc_location inc = strip (line_at lines (i + 2))
  /\ inc_municipality inc = strip (line_at lines (i + 3))
  /\ inc_raw_timestamp inc = strip (line_at lines (i + 4))
  /\ inc_station inc = strip (line_at lines (i + 5))
  /\ ts_re_match (inc_raw_timestamp inc) = true
  /\ strptime (inc_raw_timestamp inc) = Some (inc_timestamp inc)
  /\ (cutoff <= to_us (inc_timestamp inc))%Z.

(** The blocks that start at [starts] follow one another from [lo] on
    without sharing a line. *)
Fixpoint spaced (lo : nat) (starts : list nat) : Prop :=
  match starts with
  | [] => True
  | i :: r => (lo <= i)%nat /\ spaced (i + 6) r
  end.

(** The first line after the last of the blocks, [lo] when there is none. *)
Fixpoint end_of (lo : nat) (starts : list nat) : nat :=
  match starts with
  | [] => lo
  | i :: r => end_of (i + 6) r
  end.

(** The fields of [inc] that the scanner derives from the others. *)
Definition derived_fields (links : gmap string string) (inc : incident) : Prop :=
  inc_description inc
  = inc_location inc +:+ " | " +:+ inc_municipality inc +:+ " | "
    +:+ inc_type inc +:+ " | " +:+ inc_category inc +:+ " | Stn " +:+ inc_station inc
  /\ inc_comments_url inc = default "" (links !! inc_id inc)
  /\ (inc_comments_url inc = "" -> inc_units_on_scene inc = [])
  /\ List.NoDup (inc_units_on_scene inc).

(** The requests for the comments pages of [incs]: one for every incident
    with a comments address, in order. *)
Definition fetched (incs : list incident) : list event :=
  map EvGet
    (List.filter (fun url => negb (String.eqb url "")) (map inc_comments_url incs)).


(** The anchor is one that the link resolver records: it has a text and an
    address, and the address contains "livecadcomments" in any case. *)
Definition is_comments_anchor (a : string * string) : bool :=
  negb (String.eqb (fst a) "") && negb (String.eqb (snd a) "")
  && contains "livecadcomments" (lower (snd a)).

(** The event is one of those that a poll cycle with the settings [cfg] can
    add to the trace. *)
Definition cycle_event (cfg : Config) (e : event) : Prop :=
  match e with
  | EvGet _ | EvNow | EvDisconnect => True
  | EvConnect host port => host = MQTT_HOST cfg /\ port = MQTT_PORT cfg
  | EvPublish topic _ retain => topic = MQTT_TOPIC cfg /\ retain = true
  | EvSleep seconds => seconds = POLL_INTERVAL cfg
  | EvUsernamePwSet _ _ => False
  end.

(** The number of sleeps in a trace. *)
Definition sleeps (trace : list event) : nat :=
  length (List.filter (fun e => match e with EvSleep _ => true | _ => false end) trace).

(** The number of requests in a trace. *)
Definition requests (trace : list event) : nat :=
  length (List.filter (fun e => match e with EvGet _ => true | _ => false end) trace).

(** ** Sample inputs *)

Module Sample.

Definition at_time (y m d H M S : Z) : datetime :=
  {| year := y; month := m; day := d;
     hour := H; minute := M; second := S; microsecond := 0 |}.

Definition newline : string := String (ascii_of_N 10) "".

(** ["\n".join(ls)] *)
Fixpoint join_lines (ls : list string) : string :=
  match ls with
  | [] => ""
  | [l] => l
  | l :: r => l +:+ newline +:+ join_lines r
  end.

(** The primary page of the specification's end-to-end scenario. *)
Definition main_lines : list string :=
  ["Fire Incidents"; "Incident No."; "F25065066"; "FIRE ALARM";
   "LANCASTER AVE & COUNTRY CLUB DR"; "East Caln Township";
   "11-29-2025 00:31:04"; "46"].

Definition comment_lines : list string :=
  ["ENG45> On Scene"; "ENG45> On Scene"; "TWR1> At Scene"].

Definition comments_href : string := "LiveCadComments.asp?eid=F25065066".

Definition main_page : page :=
  {| anchors := [("F25065066", comments_href)];
     text := join_lines main_lines |}.

Definition comments_page : page :=
  {| anchors := []; text := join_lines comment_lines |}.

(** A world with a fixed clock where the primary page answers with status
    [main_status] and every other address with [comments_status]. *)
Definition world (now : datetime) (main_status comments_status : Z) : World :=
  {| http_get := fun _ url =>
       if String.eqb url URL
       then Reply {| status_code := main_status; body := main_page |}
       else Reply {| status_code := comments_status; body := comments_page |};
     clock := fun _ => now;
     mqtt_connect := fun _ => None;
     mqtt_publish := fun _ => None;
     mqtt_disconnect := fun _ => None;
     urljoin := fun _ href => "https://webcad.chesco.org/WebCad/" +:+ href |}.

(** A world whose network is down. *)
Definition offline (now : datetime) : World :=
  {| http_get := fun _ _ => Failed OSError;
     clock := fun _ => now;
     mqtt_connect := fun _ => None;
     mqtt_publish := fun _ => None;
     mqtt_disconnect := fun _ => None;
     urljoin := fun _ href => href |}.

Definition settings (filters : gset string) : Config :=
  {| TARGET_FILTERS := filters;
     MQTT_HOST := "localhost"; MQTT_PORT := 1883;
     MQTT_USERNAME := ""; MQTT_PASSWORD := "";
     MQTT_TOPIC := "chesco/cad/official_summary";
     POLL_INTERVAL := 60 |}.

(** One block of six lines with the time stamp [ts] and the station [stn]. *)
Definition block (ts stn : string) : list string :=
  ["F25065066"; "FIRE ALARM"; "LANCASTER AVE & COUNTRY CLUB DR";
   "East Caln Township"; ts; stn].

Definition links : gmap string string :=
  {["F25065066" := "https://webcad.chesco.org/WebCad/" +:+ comments_href]}.

(** An incident of the municipality [muni]. *)
Definition incident_in (id muni : string) : incident :=
  {| inc_timestamp := at_time 2025 11 29 0 31 4;
     inc_id := id;
     inc_location := "LANCASTER AVE & COUNTRY CLUB DR";
     inc_municipality := muni;
     inc_type := "FIRE ALARM";
     inc_category := "FIRE";
     inc_station := "46";
     inc_description := "";
     inc_raw_timestamp := "11-29-2025 00:31:04";
     inc_comments_url := "";
     inc_units_on_scene := [] |}.

End Sample.

(** ** Sample outages *)

Module Outage.

(** The world of [Sample.world] with a bus that refuses the connection. *)
Definition bus_down (now : datetime) : World :=
  {| http_get := http_get (Sample.world now 200 200);
     clock := fun _ => now;
     mqtt_connect := fun _ => Some OSError;
     mqtt_publish := fun _ => None;
     mqtt_disconnect := fun _ => None;
     urljoin := urljoin (Sample.world now 200 200) |}.

(** The world of [Sample.world] with a bus that raises on [publish]. *)
Definition publish_fails (now : datetime) : World :=
  {| http_get := http_get (Sample.world now 200 200);
     clock := fun _ => now;
     mqtt_connect := fun _ => None;
     mqtt_publish := fun _ => Some OtherException;
     mqtt_disconnect := fun _ => None;
     urljoin := urljoin (Sample.world now 200 200) |}.

End Outage.

(** * Properties *)

(** ** The comments page never stops a scan *)

Lemma try_fetch_cases w url h :
  (exists r, http_get w h url = Reply r
             /\ ~ (400 <= status_code r < 600)%Z
             /\ try_fetch w url h = (Val (Some (body r)), h ++ [EvGet url]))
  \/ (fetch_fails w h url
      /\ try_fetch w url h = (Val None, h ++ [EvGet url])).
Proof.
  unfold try_fetch, try_except, bind, requests_get, raise_for_status, fetch_fails.
  destruct (http_get w h url) as [r|e] eqn:Hget.
  - destruct ((400 <=? status_code r)%Z && (status_code r <? 600)%Z) eqn:Hst;
      cbn.
    + right. split; [lia | reflexivity].
    + left. exists r. split; [reflexivity | split; [lia | reflexivity]].
  - right. cbn. split; [exact I | reflexivity].
Qed.

Lemma get_units_on_scene_cases w url h :
  (url = "" /\ get_units_on_scene w url h = (Val [], h))
  \/ (url <> "" /\ fetch_fails w h url
      /\ get_units_on_scene w url h = (Val [], h ++ [EvGet url]))
  \/ (url <> "" /\ exists r,
        http_get w h url = Reply r
        /\ ~ (400 <= status_code r < 600)%Z
        /\ get_units_on_scene w url h
           = (Val (units_of_lines (nonblank_lines (text (body r)))),
              h ++ [EvGet url])).
Proof.
  unfold get_units_on_scene.
  destruct (String.eqb_spec url "") as [->|Hne].
  - left. split; reflexivity.
  - right. unfold bind.
    destruct (try_fetch_cases w url h) as [(r & Hr & Hst & ->)|(Hf & ->)].
    + right. split; [exact Hne|]. exists r. repeat split; assumption.
    + left. repeat split; assumption.
Qed.

Lemma get_units_on_scene_val w url h :
  exists units h', get_units_on_scene w url h = (Val units, h').
Proof.
  destruct (get_units_on_scene_cases w url h)
    as [(_ & ->)|[(_ & _ & ->)|(_ & r & _ & _ & ->)]]; eauto.
Qed.

(** ** The scanner at an ID line *)

Lemma id_re_match_inv line :
  id_re_match line = true ->
  exists c d r, line = String c (String d r)
                /\ isupper_AZ c = true /\ isdigit d = true.
Proof.
  unfold id_re_match. destruct line as [|c [|d r]]; cbn.
  - discriminate.
  - destruct (isupper_AZ c); discriminate.
  - destruct (isupper_AZ c) eqn:Hc; [|discriminate].
    destruct (isdigit d) eqn:Hd; [|discriminate].
    intros _. exists c, d, r. auto.
Qed.

Lemma prefix_cons a p b s :
  String.prefix (String a p) (String b s)
  = if ascii_dec a b then String.prefix p s else false.
Proof. reflexivity. Qed.

Lemma id_line_not_marker line :
  id_re_match line = true ->
  String.eqb line "Fire Incidents" = false
  /\ String.eqb line "EMS Incidents" = false
  /\ String.eqb line "Traffic Incidents" = false
  /\ startswith "Incident No." line = false
  /\ startswith "Last Updated" line = false.
Proof.
  intros Hid. destruct (id_re_match_inv line Hid) as (c & d & r & -> & _ & Hd).
  assert (Hne : forall x, isdigit x = false -> Ascii.eqb d x = false).
  { intros x Hx. destruct (Ascii.eqb_spec d x) as [->|]; congruence. }
  repeat split.
  - cbn. rewrite (Hne "i"%char eq_refl). apply andb_false_r.
  - cbn. rewrite (Hne "M"%char eq_refl). apply andb_false_r.
  - cbn. rewrite (Hne "r"%char eq_refl). apply andb_false_r.
  - unfold startswith. rewrite !prefix_cons.
    destruct (ascii_dec "I" c); [|reflexivity].
    destruct (ascii_dec "n" d) as [<-|]; [discriminate|reflexivity].
  - unfold startswith. rewrite !prefix_cons.
    destruct (ascii_dec "L" c); [|reflexivity].
    destruct (ascii_dec "a" d) as [<-|]; [discriminate|reflexivity].
Qed.

Lemma id_line_header_none line :
  id_re_match line = true -> header_category line = None.
Proof.
  intros Hid. destruct (id_line_not_marker line Hid) as (H1 & H2 & H3 & _).
  unfold header_category. now rewrite H1, H2, H3.
Qed.

(** At an ID line with too few lines left the loop is left. *)
Lemma scan_step_short w lines links cutoff st h :
  id_re_match (line_at lines (cursor st)) = true ->
  (length lines <= cursor st + 5)%nat ->
  scan_step w lines links cutoff st h = (Val Break, h).
Proof.
  intros Hid Hlen. unfold scan_step.
  destruct (id_line_not_marker _ Hid) as (-> & -> & -> & -> & ->).
  rewrite Hid. cbn.
  destruct (Nat.leb_spec (length lines) (cursor st + 5)); [reflexivity | lia].
Qed.

(** A block whose time stamp is refused, or is older than the cutoff, is
    passed over. *)
Lemma scan_step_block_drop w lines links cutoff st h :
  id_re_match (line_at lines (cursor st)) = true ->
  (cursor st + 5 < length lines)%nat ->
  (ts_re_match (strip (line_at lines (cursor st + 4))) = false
   \/ strptime (strip (line_at lines (cursor st + 4))) = None
   \/ exists dt, strptime (strip (line_at lines (cursor st + 4))) = Some dt
                 /\ (to_us dt < cutoff)%Z) ->
  scan_step w lines links cutoff st h
  = (Val (Continue {| cursor := cursor st + 6;
                      current_category := current_category st;
                      found := found st |}), h).
Proof.
  intros Hid Hlen Hts. unfold scan_step.
  destruct (id_line_not_marker _ Hid) as (-> & -> & -> & -> & ->).
  rewrite Hid. cbn.
  destruct (Nat.leb_spec (length lines) (cursor st + 5)); [lia|].
  destruct (ts_re_match _) eqn:Hre; cbn; [|reflexivity].
  destruct Hts as [Hts|[Hts|(dt & Hts & Hlt)]].
  - congruence.
  - now rewrite Hts.
  - rewrite Hts. unfold dt_lt.
    destruct (Z.ltb_spec (to_us dt) cutoff); [reflexivity | lia].
Qed.

(** A block whose time stamp parses and is not older than the cutoff adds
    one incident, after the comments page of its ID is asked for. *)
Lemma scan_step_block_emit w lines links cutoff st h dt :
  id_re_match (line_at lines (cursor st)) = true ->
  (cursor st + 5 < length lines)%nat ->
  ts_re_match (strip (line_at lines (cursor st + 4))) = true ->
  strptime (strip (line_at lines (cursor st + 4))) = Some dt ->
  (cutoff <= to_us dt)%Z ->
  let i := cursor st in
  let comments_url := default "" (links !! strip (line_at lines i)) in
  exists units h',
    get_units_on_scene w comments_url h = (Val units, h')
    /\ scan_step w lines links cutoff st h
       = (Val (Continue
                 {| cursor := i + 6;
                    current_category := current_category st;
                    found := found st ++
                      [{| inc_timestamp := dt;
                          inc_id := strip (line_at lines i);
                          inc_location := strip (line_at lines (i + 2));
                          inc_municipality := strip (line_at lines (i + 3));
                          inc_type := strip (line_at lines (i + 1));
                          inc_category := or_unknown (current_category st);
                          inc_station := strip (line_at lines (i + 5));
                          inc_description :=
                            strip (line_at lines (i + 2)) +:+ " | "
                            +:+ strip (line_at lines (i + 3)) +:+ " | "
                            +:+ strip (line_at lines (i + 1)) +:+ " | "
                            +:+ or_unknown (current_category st) +:+ " | Stn "
                            +:+ strip (line_at lines (i + 5));
                          inc_raw_timestamp := strip (line_at lines (i + 4));
                          inc_comments_url := comments_url;
                          inc_units_on_scene := units |}] |}), h').
Proof.
  intros Hid Hlen Hre Hts Hcut i comments_url.
  destruct (get_units_on_scene_val w comments_url h) as (units & h' & Hu).
  exists units, h'. split; [exact Hu|].
  unfold scan_step.
  destruct (id_line_not_marker _ Hid) as (-> & -> & -> & -> & ->).
  rewrite Hid. cbn.
  destruct (Nat.leb_spec (length lines) (cursor st + 5)); [lia|].
  rewrite Hre, Hts. cbn. unfold dt_lt.
  destruct (Z.ltb_spec (to_us dt) cutoff); [lia|].
  unfold bind. fold i. fold comments_url. rewrite Hu. reflexivity.
Qed.

(** ** Trimming a time stamp that already has the strict shape *)

Lemma rstrip_cons c r :
  rstrip (String c r)
  = if String.eqb (rstrip r) "" && isspace c then "" else String c (rstrip r).
Proof.
  cbn [rstrip]. destruct (rstrip r); [|reflexivity].
  now destruct (isspace c).
Qed.

Lemma isdigit_not_space c : isdigit c = true -> isspace c = false.
Proof.
  destruct c as [[|] [|] [|] [|] [|] [|] [|] [|]]; vm_compute; congruence.
Qed.

Lemma at_dollar_inv s :
  at_dollar s = true -> s = "" \/ s = String (ascii_of_N 10) "".
Proof.
  unfold at_dollar. rewrite orb_true_iff, !String.eqb_eq. tauto.
Qed.


(** ** The model of the Python built-ins on sample texts *)

Example strip_sample : strip "  East Caln Township  " = "East Caln Township".
Proof. reflexivity. Qed.

Example split_sample :
  split " 11-29-2025  00:40:31 ENG45" = ["11-29-2025"; "00:40:31"; "ENG45"].
Proof. reflexivity. Qed.

Example before_sample : before ">" "ENG45> On Scene > x" = "ENG45".
Proof. reflexivity. Qed.

Example splitlines_sample :
  splitlines (Sample.join_lines ["a"; ""; "b "] +:+ Sample.newline) = ["a"; ""; "b "].
Proof. reflexivity. Qed.

Example id_re_match_sample :
  id_re_match "F25065066" = true /\ id_re_match "F" = false
  /\ id_re_match " F25065066" = false /\ id_re_match "F25065066 " = false
  /\ id_re_match "f25065066" = false.
Proof. repeat split; reflexivity. Qed.

Example strptime_sample :
  strptime "11-29-2025 00:31:04" = Some (Sample.at_time 2025 11 29 0 31 4)
  /\ strptime "02-29-2025 00:31:04" = None
  /\ strptime "02-29-2024 00:31:04" = Some (Sample.at_time 2024 2 29 0 31 4)
  /\ strptime "13-01-2025 00:31:04" = None
  /\ strptime "11-29-2025 24:00:00" = None
  /\ strptime "11-29-2025 00:31:60" = None
  /\ strptime "01-01-0000 00:00:00" = None.
Proof. repeat split; reflexivity. Qed.

Example ymd2ord_sample : ymd2ord 1 1 1 = 1%Z /\ ymd2ord 2025 11 29 = 739584%Z.
Proof. split; reflexivity. Qed.

(** The configured texts are trimmed pieces of the environment variable,
    none of them empty. *)
Lemma target_filters_of_nonempty env key :
  key ∈ target_filters_of env ->
  key <> "" /\ exists piece, In piece (split_comma_from "" env) /\ key = strip piece.
Proof.
  unfold target_filters_of. rewrite elem_of_list_to_set, list_elem_of_In.
  rewrite in_map_iff. intros (piece & <- & Hin).
  apply filter_In in Hin as [Hin Hne]. split.
  - intros Heq. rewrite Heq in Hne. discriminate.
  - exists piece. auto.
Qed.

Example target_filters_of_sample :
  target_filters_of " East Caln , ,West Chester," = {["East Caln"; "West Chester"]}
  /\ target_filters_of "" = ∅.
Proof. split; vm_compute; reflexivity. Qed.

(** ** Claims on single blocks *)

(** C1, as amended.  When the scanner stands on a line of the incident-ID
    shape with at least five more lines after it, and the fifth line of the
    block (the fourth after the ID line) has, once trimmed, the strict
    MM-DD-YYYY HH:MM:SS shape, parses to a date and time, and is not older
    than the cutoff, the turn adds exactly one incident whose id, type,
    location, municipality, raw time stamp and station are the six lines
    trimmed, and moves the cursor on by six. *)
Theorem C1_recent_block_emits_one w lines links cutoff st h dt :
  id_re_match (line_at lines (cursor st)) = true ->
  (cursor st + 5 < length lines)%nat ->
  ts_re_match (strip (line_at lines (cursor st + 4))) = true ->
  strptime (strip (line_at lines (cursor st + 4))) = Some dt ->
  (cutoff <= to_us dt)%Z ->
  exists inc st' h',
    scan_step w lines links cutoff st h = (Val (Continue st'), h')
    /\ cursor st' = (cursor st + 6)%nat
    /\ found st' = found st ++ [inc]
    /\ inc_id inc = strip (line_at lines (cursor st))
    /\ inc_type inc = strip (line_at lines (cursor st + 1))
    /\ inc_location inc = strip (line_at lines (cursor st + 2))
    /\ inc_municipality inc = strip (line_at lines (cursor st + 3))
    /\ inc_raw_timestamp inc = strip (line_at lines (cursor st + 4))
    /\ inc_station inc = strip (line_at lines (cursor st + 5)).
Proof.
  intros Hid Hlen Hre Hts Hcut.
  destruct (scan_step_block_emit w lines links cutoff st h dt Hid Hlen Hre Hts Hcut)
    as (units & h' & _ & Hstep).
  eexists _, _, h'. split; [exact Hstep|]. cbn. repeat split; reflexivity.
Qed.

Lemma C1_recent_block_emits_one_witness :
  exists inc st' h',
    scan_step (Sample.world (Sample.at_time 2025 11 29 8 0 0) 200 200)
      Sample.main_lines Sample.links
      (cutoff_of (Sample.at_time 2025 11 29 8 0 0))
      {| cursor := 2; current_category := Some "FIRE"; found := [] |} []
    = (Val (Continue st'), h')
    /\ cursor st' = 8%nat
    /\ found st' = [] ++ [inc]
    /\ inc_id inc = "F25065066"
    /\ inc_type inc = "FIRE ALARM"
    /\ inc_location inc = "LANCASTER AVE & COUNTRY CLUB DR"
    /\ inc_municipality inc = "East Caln Township"
    /\ inc_raw_timestamp inc = "11-29-2025 00:31:04"
    /\ inc_station inc = "46".
Proof.
  apply (C1_recent_block_emits_one
           (Sample.world (Sample.at_time 2025 11 29 8 0 0) 200 200)
           Sample.main_lines Sample.links
           (cutoff_of (Sample.at_time 2025 11 29 8 0 0))
           {| cursor := 2; current_category := Some "FIRE"; found := [] |} []
           (Sample.at_time 2025 11 29 0 31 4)).
  - reflexivity.
  - vm_compute. lia.
  - reflexivity.
  - reflexivity.
  - vm_compute. discriminate.
Defined.

(** C1 as stated fails: a block of the right shape whose time stamp is more
    than eight hours old gives no incident.  Here both the fifth line of the
    block and the fifth line after the ID line have the strict shape and
    parse, the clock reads 2025-11-29 08:00:00, and the scan of the six
    lines ends with an empty list. *)
Lemma C1_counterexample_old_block :
  let lines := Sample.block "11-28-2025 00:31:04" "11-28-2025 00:31:04" in
  let now := Sample.at_time 2025 11 29 8 0 0 in
  let w := Sample.world now 200 200 in
  id_re_match (line_at lines 0) = true
  /\ (0 + 5 < length lines)%nat
  /\ ts_re_match (line_at lines 4) = true
  /\ ts_re_match (line_at lines 5) = true
  /\ is_Some (strptime (line_at lines 4))
  /\ is_Some (strptime (line_at lines 5))
  /\ scan_step w lines Sample.links (cutoff_of now) scan_start []
     = (Val (Continue {| cursor := 6; current_category := None; found := [] |}), [])
  /\ scan_loop w lines Sample.links (cutoff_of now) (length lines) scan_start []
     = (Val [], []).
Proof.
  cbv zeta. repeat split; try reflexivity.
  - vm_compute. lia.
  - eexists. reflexivity.
  - eexists. reflexivity.
Qed.

(** C2, as amended.  When the scanner stands on a line of the incident-ID
    shape with at least five more lines after it, and the fifth line of the
    block (the fourth after the ID line), once trimmed, fails the strict
    shape or does not parse to a date and time, the turn adds no incident,
    asks the network nothing and moves the cursor on by six: the next turn
    of the loop starts behind the block. *)
Theorem C2_malformed_block_is_skipped w lines links cutoff st h :
  id_re_match (line_at lines (cursor st)) = true ->
  (cursor st + 5 < length lines)%nat ->
  ts_re_match (strip (line_at lines (cursor st + 4))) = false
  \/ strptime (strip (line_at lines (cursor st + 4))) = None ->
  let st' := {| cursor := cursor st + 6;
                current_category := current_category st;
                found := found st |} in
  scan_step w lines links cutoff st h = (Val (Continue st'), h)
  /\ forall fuel,
       scan_loop w lines links cutoff (S fuel) st h
       = scan_loop w lines links cutoff fuel st' h.
Proof.
  intros Hid Hlen Hbad st'.
  assert (Hstep : scan_step w lines links cutoff st h = (Val (Continue st'), h)).
  { apply scan_step_block_drop; [assumption | assumption | tauto]. }
  split; [exact Hstep|].
  intros fuel. cbn [scan_loop].
  destruct (Nat.ltb_spec (cursor st) (length lines)); [|lia].
  unfold bind. rewrite Hstep. reflexivity.
Qed.

Lemma C2_malformed_block_is_skipped_witness :
  let lines := Sample.block "13-29-2025 00:31:04" "46" ++ Sample.main_lines in
  let w := Sample.world (Sample.at_time 2025 11 29 8 0 0) 200 200 in
  let st' := {| cursor := 6; current_category := None; found := [] |} in
  scan_step w lines Sample.links 0 scan_start [] = (Val (Continue st'), [])
  /\ forall fuel,
       scan_loop w lines Sample.links 0 (S fuel) scan_start []
       = scan_loop w lines Sample.links 0 fuel st' [].
Proof.
  apply (C2_malformed_block_is_skipped
           (Sample.world (Sample.at_time 2025 11 29 8 0 0) 200 200)
           (Sample.block "13-29-2025 00:31:04" "46" ++ Sample.main_lines)
           Sample.links 0 scan_start []).
  - reflexivity.
  - vm_compute. lia.
  - right. reflexivity.
Defined.

(** C2 as stated fails: the line that must have the strict shape is the
    fifth of the block, and it is trimmed before it is tested.  Here the
    fifth line after the ID line ("46") fails the shape, and so does the
    fifth line of the block as it stands, which ends in a space; yet the
    block gives an incident. *)
Lemma C2_counterexample_trimmed_timestamp :
  let lines := Sample.block "11-29-2025 00:31:04 " "46" in
  let now := Sample.at_time 2025 11 29 8 0 0 in
  let w := Sample.world now 200 200 in
  id_re_match (line_at lines 0) = true
  /\ (0 + 5 < length lines)%nat
  /\ ts_re_match (line_at lines 5) = false
  /\ ts_re_match (line_at lines 4) = false
  /\ exists inc h',
       scan_loop w lines Sample.links (cutoff_of now) (length lines) scan_start []
       = (Val [inc], h')
       /\ inc_id inc = "F25065066"
       /\ inc_raw_timestamp inc = "11-29-2025 00:31:04".
Proof.
  cbv zeta. repeat split; try reflexivity.
  - vm_compute. lia.
  - eexists _, _. vm_compute. repeat split; reflexivity.
Qed.

(** C4.  The cutoff is part of the window: a block whose time stamp is
    exactly eight hours before the clock reading gives its incident, and a
    block whose time stamp is earlier than that, be it by one second, gives
    none.  (Both times are wall-clock times of the one zone.) *)
Theorem C4_recency_boundary_inclusive w lines links now st h dt :
  id_re_match (line_at lines (cursor st)) = true ->
  (cursor st + 5 < length lines)%nat ->
  ts_re_match (strip (line_at lines (cursor st + 4))) = true ->
  strptime (strip (line_at lines (cursor st + 4))) = Some dt ->
  (to_us dt = to_us now - eight_hours ->
   exists inc st' h',
     scan_step w lines links (cutoff_of now) st h = (Val (Continue st'), h')
     /\ found st' = found st ++ [inc]
     /\ inc_timestamp inc = dt)%Z
  /\ (to_us dt < to_us now - eight_hours ->
      exists st',
        scan_step w lines links (cutoff_of now) st h = (Val (Continue st'), h)
        /\ found st' = found st)%Z
  /\ (to_us dt = to_us now - eight_hours - 1000000 ->
      exists st',
        scan_step w lines links (cutoff_of now) st h = (Val (Continue st'), h)
        /\ found st' = found st)%Z.
Proof.
  intros Hid Hlen Hre Hts.
  assert (Hold : (to_us dt < cutoff_of now)%Z ->
                 exists st',
                   scan_step w lines links (cutoff_of now) st h
                   = (Val (Continue st'), h)
                   /\ found st' = found st).
  { intros Hlt. eexists. split.
    - apply scan_step_block_drop; [assumption | assumption |].
      right; right. exists dt. split; [exact Hts | exact Hlt].
    - reflexivity. }
  unfold cutoff_of in Hold. split; [|split].
  - intros Heq.
    destruct (scan_step_block_emit w lines links (cutoff_of now) st h dt
                Hid Hlen Hre Hts) as (units & h' & _ & Hstep).
    { unfold cutoff_of. lia. }
    eexists _, _, h'. split; [exact Hstep|]. split; reflexivity.
  - exact Hold.
  - intros Heq. apply Hold. lia.
Qed.

Lemma C4_recency_boundary_inclusive_witness :
  let w := Sample.world (Sample.at_time 2025 11 29 8 31 4) 200 200 in
  let st := {| cursor := 2; current_category := Some "FIRE"; found := [] |} in
  (exists inc st' h',
     scan_step w Sample.main_lines Sample.links
       (cutoff_of (Sample.at_time 2025 11 29 8 31 4)) st []
     = (Val (Continue st'), h')
     /\ found st' = [] ++ [inc]
     /\ inc_timestamp inc = Sample.at_time 2025 11 29 0 31 4)
  /\ (exists st',
        scan_step w Sample.main_lines Sample.links
          (cutoff_of (Sample.at_time 2025 11 29 8 31 5)) st []
        = (Val (Continue st'), [])
        /\ found st' = []).
Proof.
  cbv zeta. split.
  - apply (C4_recency_boundary_inclusive
             (Sample.world (Sample.at_time 2025 11 29 8 31 4) 200 200)
             Sample.main_lines Sample.links (Sample.at_time 2025 11 29 8 31 4)
             {| cursor := 2; current_category := Some "FIRE"; found := [] |} []
             (Sample.at_time 2025 11 29 0 31 4));
      [reflexivity | vm_compute; lia | reflexivity | reflexivity | reflexivity].
  - apply (C4_recency_boundary_inclusive
             (Sample.world (Sample.at_time 2025 11 29 8 31 4) 200 200)
             Sample.main_lines Sample.links (Sample.at_time 2025 11 29 8 31 5)
             {| cursor := 2; current_category := Some "FIRE"; found := [] |} []
             (Sample.at_time 2025 11 29 0 31 4));
      [reflexivity | vm_compute; lia | reflexivity | reflexivity | reflexivity].
Defined.

(** C7.  [get_units_on_scene] with the empty address returns the empty list
    and asks the network nothing; when the fetch of the comments page
    fails it returns the empty list as well; it never raises; and a block
    whose comments page cannot be fetched still gives its incident, with no
    units on scene, the scan going on behind the block. *)
Theorem C7_comments_failure_is_contained w :
  (forall h, get_units_on_scene w "" h = (Val [], h))
  /\ (forall url h,
        url <> "" -> fetch_fails w h url ->
        get_units_on_scene w url h = (Val [], h ++ [EvGet url]))
  /\ (forall url h, exists units h',
        get_units_on_scene w url h = (Val units, h'))
  /\ (forall lines links cutoff st h dt,
        id_re_match (line_at lines (cursor st)) = true ->
        (cursor st + 5 < length lines)%nat ->
        ts_re_match (strip (line_at lines (cursor st + 4))) = true ->
        strptime (strip (line_at lines (cursor st + 4))) = Some dt ->
        (cutoff <= to_us dt)%Z ->
        fetch_fails w h (default "" (links !! strip (line_at lines (cursor st)))) ->
        exists inc st' h',
          scan_step w lines links cutoff st h = (Val (Continue st'), h')
          /\ cursor st' = (cursor st + 6)%nat
          /\ found st' = found st ++ [inc]
          /\ inc_id inc = strip (line_at lines (cursor st))
          /\ inc_units_on_scene inc = []).
Proof.
  split; [|split; [|split]].
  - intros h. reflexivity.
  - intros url h Hne Hfail.
    destruct (get_units_on_scene_cases w url h)
      as [(-> & _)|[(_ & _ & Hu)|(_ & r & Hr & Hst & _)]].
    + congruence.
    + exact Hu.
    + unfold fetch_fails in Hfail. rewrite Hr in Hfail. contradiction.
  - intros url h. apply get_units_on_scene_val.
  - intros lines links cutoff st h dt Hid Hlen Hre Hts Hcut Hfail.
    destruct (scan_step_block_emit w lines links cutoff st h dt Hid Hlen Hre Hts Hcut)
      as (units & h' & Hu & Hstep).
    cbv zeta in Hu, Hstep.
    assert (Hnil : units = []).
    { destruct (get_units_on_scene_cases w
                  (default "" (links !! strip (line_at lines (cursor st)))) h)
        as [(_ & Hu')|[(_ & _ & Hu')|(_ & r & Hr & Hst & _)]].
      - congruence.
      - congruence.
      - unfold fetch_fails in Hfail. rewrite Hr in Hfail. contradiction. }
    subst units.
    eexists _, _, h'. split; [exact Hstep|]. cbn. repeat split; reflexivity.
Qed.

Lemma C7_comments_failure_is_contained_witness :
  let now := Sample.at_time 2025 11 29 8 0 0 in
  let url := "https://webcad.chesco.org/WebCad/" +:+ Sample.comments_href in
  get_units_on_scene (Sample.world now 200 503) url [] = (Val [], [] ++ [EvGet url])
  /\ exists inc st' h',
       scan_step (Sample.world now 200 503) Sample.main_lines Sample.links
         (cutoff_of now)
         {| cursor := 2; current_category := Some "FIRE"; found := [] |} []
       = (Val (Continue st'), h')
       /\ cursor st' = 8%nat
       /\ found st' = [] ++ [inc]
       /\ inc_id inc = "F25065066"
       /\ inc_units_on_scene inc = [].
Proof.
  cbv zeta. split.
  - apply (proj1 (proj2 (C7_comments_failure_is_contained
                           (Sample.world (Sample.at_time 2025 11 29 8 0 0) 200 503)))).
    + discriminate.
    + vm_compute. split; [discriminate | reflexivity].
  - apply (proj2 (proj2 (proj2 (C7_comments_failure_is_contained
                           (Sample.world (Sample.at_time 2025 11 29 8 0 0) 200 503))))
             Sample.main_lines Sample.links
             (cutoff_of (Sample.at_time 2025 11 29 8 0 0))
             {| cursor := 2; current_category := Some "FIRE"; found := [] |} []
             (Sample.at_time 2025 11 29 0 31 4)).
    + reflexivity.
    + vm_compute. lia.
    + reflexivity.
    + reflexivity.
    + vm_compute. discriminate.
    + vm_compute. split; [discriminate | reflexivity].
Defined.

(** ** Termination of the scan *)

Lemma scan_step_progress w lines links cutoff st h :
  scan_step w lines links cutoff st h = (Val Break, h)
  \/ exists st' h',
       scan_step w lines links cutoff st h = (Val (Continue st'), h')
       /\ (cursor st' = (cursor st + 1)%nat \/ cursor st' = (cursor st + 6)%nat).
Proof.
  pose proof (get_units_on_scene_val w) as Hunits.
  unfold scan_step.
  repeat match goal with
         | |- context [if ?b then _ else _] => destruct b
         | |- context [match strptime ?s with _ => _ end] => destruct (strptime s)
         end;
    try (left; reflexivity);
    try (right; eexists _, _; split; [reflexivity | cbn; auto]).
  unfold bind.
  match goal with
  | |- context [get_units_on_scene w ?u h] =>
      destruct (Hunits u h) as (units & h' & ->)
  end.
  right. eexists _, _. split; [reflexivity | cbn; auto].
Qed.

Lemma scan_loop_returns w lines links cutoff fuel :
  forall st h,
    (length lines <= cursor st + fuel)%nat ->
    exists incs h', scan_loop w lines links cutoff fuel st h = (Val incs, h').
Proof.
  induction fuel as [|fuel IH]; intros st h Hfuel; cbn [scan_loop].
  - destruct (Nat.ltb_spec (cursor st) (length lines)); [lia|].
    eexists _, _. reflexivity.
  - destruct (Nat.ltb_spec (cursor st) (length lines)).
    + unfold bind.
      destruct (scan_step_progress w lines links cutoff st h)
        as [->|(st' & h' & -> & Hadv)].
      * eexists _, _. reflexivity.
      * apply IH. lia.
    + eexists _, _. reflexivity.
Qed.

Lemma get_incidents_val w h :
  exists incs h', get_incidents w h = (Val incs, h').
Proof.
  unfold get_incidents, bind.
  destruct (try_fetch_cases w URL h) as [(r & _ & _ & ->)|(_ & ->)].
  - unfold datetime_now. apply scan_loop_returns. cbn. lia.
  - eexists _, _. reflexivity.
Qed.

(** C9.  The scan of a finite list of lines ends: with as many turns as
    there are lines left the loop returns its list; every turn either
    leaves the loop or moves the cursor on by one or by six; and a turn that
    starts on a line of the incident-ID shape with fewer than six lines
    left, that line counted, leaves the loop at once, the list of incidents
    being the one found so far. *)
Theorem C9_scan_terminates w lines links cutoff :
  (forall st h, exists incs h',
      scan_loop w lines links cutoff (length lines - cursor st) st h = (Val incs, h'))
  /\ (forall h, exists incs h',
        scan_loop w lines links cutoff (length lines) scan_start h = (Val incs, h'))
  /\ (forall st h,
        scan_step w lines links cutoff st h = (Val Break, h)
        \/ exists st' h',
             scan_step w lines links cutoff st h = (Val (Continue st'), h')
             /\ (cursor st' = (cursor st + 1)%nat \/ cursor st' = (cursor st + 6)%nat))
  /\ (forall st h,
        (cursor st < length lines)%nat ->
        id_re_match (line_at lines (cursor st)) = true ->
        (length lines - cursor st < 6)%nat ->
        scan_step w lines links cutoff st h = (Val Break, h)
        /\ forall fuel,
             scan_loop w lines links cutoff (S fuel) st h = (Val (found st), h)).
Proof.
  split; [|split; [|split]].
  - intros st h. apply scan_loop_returns. lia.
  - intros h. apply scan_loop_returns. cbn. lia.
  - intros st h. apply scan_step_progress.
  - intros st h Hin Hid Hfew.
    assert (Hstep : scan_step w lines links cutoff st h = (Val Break, h)).
    { apply scan_step_short; [exact Hid | lia]. }
    split; [exact Hstep|].
    intros fuel. cbn [scan_loop].
    destruct (Nat.ltb_spec (cursor st) (length lines)); [|lia].
    unfold bind. rewrite Hstep. reflexivity.
Qed.

Lemma C9_scan_terminates_witness :
  let w := Sample.world (Sample.at_time 2025 11 29 8 0 0) 200 200 in
  let lines := Sample.main_lines ++ ["F25065067"; "VEHICLE FIRE"; "MAIN ST"] in
  let st := {| cursor := 8; current_category := Some "FIRE"; found := [] |} in
  scan_step w lines Sample.links 0 st [] = (Val Break, [])
  /\ forall fuel, scan_loop w lines Sample.links 0 (S fuel) st [] = (Val (found st), []).
Proof.
  apply (proj2 (proj2 (proj2 (C9_scan_terminates
           (Sample.world (Sample.at_time 2025 11 29 8 0 0) 200 200)
           (Sample.main_lines ++ ["F25065067"; "VEHICLE FIRE"; "MAIN ST"])
           Sample.links 0)))
           {| cursor := 8; current_category := Some "FIRE"; found := [] |} []).
  - vm_compute. lia.
  - reflexivity.
  - vm_compute. lia.
Defined.

(** ** Categories *)

(** What one turn of the scanning loop can do. *)
Lemma scan_step_inv w lines links cutoff st h r h' :
  scan_step w lines links cutoff st h = (r, h') ->
  (r = Val Break /\ h' = h)
  \/ (exists c, header_category (line_at lines (cursor st)) = Some c
                /\ In c ["FIRE"; "EMS"; "TRAFFIC"]
                /\ r = Val (Continue {| cursor := cursor st + 1;
                                        current_category := Some c;
                                        found := found st |})
                /\ h' = h)
  \/ (header_category (line_at lines (cursor st)) = None
      /\ exists k, (k = 1 \/ k = 6)%nat
                   /\ r = Val (Continue {| cursor := cursor st + k;
                                           current_category := current_category st;
                                           found := found st |})
                   /\ h' = h)
  \/ (header_category (line_at lines (cursor st)) = None
      /\ exists inc, inc_category inc = or_unknown (current_category st)
                     /\ r = Val (Continue {| cursor := cursor st + 6;
                                             current_category := current_category st;
                                             found := found st ++ [inc] |})).
Proof.
  pose proof (get_units_on_scene_val w) as Hunits.
  unfold scan_step, header_category.
  destruct (String.eqb (line_at lines (cursor st)) "Fire Incidents").
  { intros [= <- <-]. right; left. exists "FIRE". cbn. auto 10. }
  destruct (String.eqb (line_at lines (cursor st)) "EMS Incidents").
  { intros [= <- <-]. right; left. exists "EMS". cbn. auto 10. }
  destruct (String.eqb (line_at lines (cursor st)) "Traffic Incidents").
  { intros [= <- <-]. right; left. exists "TRAFFIC". cbn. auto 10. }
  destruct (startswith "Incident No." (line_at lines (cursor st))
            || startswith "Last Updated" (line_at lines (cursor st))).
  { intros [= <- <-]. right; right; left. split; [reflexivity|]. exists 1%nat. auto. }
  destruct (id_re_match (line_at lines (cursor st))); cbn [negb].
  2:{ intros [= <- <-]. right; right; left. split; [reflexivity|]. exists 1%nat. auto. }
  destruct (length lines <=? cursor st + 5)%nat.
  { intros [= <- <-]. left. auto. }
  destruct (ts_re_match (strip (line_at lines (cursor st + 4)))); cbn [negb].
  2:{ intros [= <- <-]. right; right; left. split; [reflexivity|]. exists 6%nat. auto. }
  destruct (strptime (strip (line_at lines (cursor st + 4)))) as [dt|].
  2:{ intros [= <- <-]. right; right; left. split; [reflexivity|]. exists 6%nat. auto. }
  destruct (dt_lt dt cutoff).
  { intros [= <- <-]. right; right; left. split; [reflexivity|]. exists 6%nat. auto. }
  unfold bind.
  match goal with
  | |- context [get_units_on_scene w ?u h] =>
      destruct (Hunits u h) as (units & h1 & ->)
  end.
  intros [= <- <-]. right; right; right. split; [reflexivity|].
  eexists. split; [|reflexivity]. reflexivity.
Qed.

Lemma app_one_not_self {A} (l : list A) (x : A) : l <> l ++ [x].
Proof.
  intros H. apply (f_equal (@length A)) in H. rewrite length_app in H. cbn in H. lia.
Qed.

(** The incident a turn adds has the category the scanner is in. *)
Lemma scan_step_emitted_category w lines links cutoff st h st' h' inc :
  scan_step w lines links cutoff st h = (Val (Continue st'), h') ->
  found st' = found st ++ [inc] ->
  inc_category inc = or_unknown (current_category st).
Proof.
  intros Hstep Hfound.
  destruct (scan_step_inv _ _ _ _ _ _ _ _ Hstep)
    as [(? & _)|[(c & _ & _ & Hr & _)|[(_ & k & _ & Hr & _)|(_ & inc' & Hc & Hr)]]].
  - discriminate.
  - injection Hr as ->. cbn in Hfound. now apply app_one_not_self in Hfound.
  - injection Hr as ->. cbn in Hfound. now apply app_one_not_self in Hfound.
  - injection Hr as ->. cbn in Hfound. apply app_inv_head in Hfound.
    injection Hfound as <-. exact Hc.
Qed.

Lemma quiet_run_category w lines links cutoff c1 c2 :
  quiet_run w lines links cutoff c1 c2 ->
  current_category (fst c2) = current_category (fst c1).
Proof.
  induction 1 as [c|st h st1 h1 c Hhdr Hstep _ IH]; [reflexivity|].
  rewrite IH. cbn.
  destruct (scan_step_inv _ _ _ _ _ _ _ _ Hstep)
    as [(? & _)|[(c' & Hc' & _)|[(_ & k & _ & Hr & _)|(_ & inc' & _ & Hr)]]].
  - discriminate.
  - congruence.
  - injection Hr as ->. reflexivity.
  - injection Hr as ->. reflexivity.
Qed.

Lemma or_unknown_known c :
  (c = None \/ exists c', c = Some c' /\ In c' ["FIRE"; "EMS"; "TRAFFIC"]) ->
  known_category (or_unknown c).
Proof.
  unfold known_category.
  intros [->|(c' & -> & Hin)]; cbn in *; [auto|].
  destruct Hin as [<-|[<-|[<-|[]]]]; cbn; auto.
Qed.

Lemma scan_step_invariant w lines links cutoff st h st' h' :
  scan_step w lines links cutoff st h = (Val (Continue st'), h') ->
  scan_invariant st -> scan_invariant st'.
Proof.
  intros Hstep [Hcat Hall].
  destruct (scan_step_inv _ _ _ _ _ _ _ _ Hstep)
    as [(? & _)|[(c & _ & Hin & Hr & _)|[(_ & k & _ & Hr & _)|(_ & inc & Hc & Hr)]]].
  - discriminate.
  - injection Hr as ->. split; cbn; [right; eauto | exact Hall].
  - injection Hr as ->. split; cbn; assumption.
  - injection Hr as ->. split; cbn; [assumption|].
    apply Forall_app. split; [exact Hall|].
    constructor; [|constructor]. rewrite Hc. now apply or_unknown_known.
Qed.

Lemma scan_loop_invariant w lines links cutoff fuel :
  forall st h incs h',
    scan_invariant st ->
    scan_loop w lines links cutoff fuel st h = (Val incs, h') ->
    Forall (fun inc => known_category (inc_category inc)) incs.
Proof.
  induction fuel as [|fuel IH]; intros st h incs h' Hinv; cbn [scan_loop].
  - destruct (cursor st <? length lines)%nat; [discriminate|].
    intros [= <- <-]. apply Hinv.
  - destruct (cursor st <? length lines)%nat.
    + unfold bind.
      destruct (scan_step w lines links cutoff st h) as [[[st'|]|e|] h1] eqn:Hstep.
      * intros Hloop. eapply IH; [|exact Hloop].
        eapply scan_step_invariant; eassumption.
      * intros [= <- <-]. apply Hinv.
      * discriminate.
      * discriminate.
    + intros [= <- <-]. apply Hinv.
Qed.

(** C3, as amended.  When a turn of the scan starts on the literal line
    "Fire Incidents", "EMS Incidents" or "Traffic Incidents", and the turns
    after it start on no section header until one of them adds an incident,
    that incident has the category FIRE, EMS or TRAFFIC of the header; an
    incident added before any turn has started on a section header has the
    category UNKNOWN; and every incident of a scan has one of the four
    categories. *)
Theorem C3_category_follows_header w lines links cutoff :
  (forall hdr c st h st1 h1 st2 h2 st3 h3 inc,
      In (hdr, c) [("Fire Incidents", "FIRE"); ("EMS Incidents", "EMS");
                   ("Traffic Incidents", "TRAFFIC")] ->
      line_at lines (cursor st) = hdr ->
      scan_step w lines links cutoff st h = (Val (Continue st1), h1) ->
      quiet_run w lines links cutoff (st1, h1) (st2, h2) ->
      scan_step w lines links cutoff st2 h2 = (Val (Continue st3), h3) ->
      found st3 = found st2 ++ [inc] ->
      inc_category inc = c)
  /\ (forall h st2 h2 st3 h3 inc,
        quiet_run w lines links cutoff (scan_start, h) (st2, h2) ->
        scan_step w lines links cutoff st2 h2 = (Val (Continue st3), h3) ->
        found st3 = found st2 ++ [inc] ->
        inc_category inc = "UNKNOWN")
  /\ (forall fuel h incs h',
        scan_loop w lines links cutoff fuel scan_start h = (Val incs, h') ->
        forall inc, In inc incs ->
                    In (inc_category inc) ["FIRE"; "EMS"; "TRAFFIC"; "UNKNOWN"]).
Proof.
  split; [|split].
  - intros hdr c st h st1 h1 st2 h2 st3 h3 inc Hin Hline Hstep1 Hrun Hstep3 Hfound.
    assert (Hhdr : header_category (line_at lines (cursor st)) = Some c /\ c <> "").
    { rewrite Hline.
      destruct Hin as [[= <- <-]|[[= <- <-]|[[= <- <-]|[]]]];
        split; (reflexivity || discriminate). }
    destruct Hhdr as [Hhdr Hne].
    assert (Hcat1 : current_category st1 = Some c).
    { destruct (scan_step_inv _ _ _ _ _ _ _ _ Hstep1)
        as [(? & _)|[(c' & Hc' & _ & Hr & _)|[(Hn & _)|(Hn & _)]]];
        try congruence.
      injection Hr as ->. cbn. congruence. }
    rewrite (scan_step_emitted_category _ _ _ _ _ _ _ _ _ Hstep3 Hfound).
    pose proof (quiet_run_category _ _ _ _ _ _ Hrun) as Hq. cbn in Hq.
    rewrite Hq, Hcat1.
    cbn. destruct (String.eqb_spec c ""); [contradiction | reflexivity].
  - intros h st2 h2 st3 h3 inc Hrun Hstep3 Hfound.
    rewrite (scan_step_emitted_category _ _ _ _ _ _ _ _ _ Hstep3 Hfound).
    pose proof (quiet_run_category _ _ _ _ _ _ Hrun) as Hq. cbn in Hq.
    rewrite Hq. reflexivity.
  - intros fuel h incs h' Hloop inc Hin.
    assert (Hall : Forall (fun inc => known_category (inc_category inc)) incs).
    { eapply scan_loop_invariant; [|exact Hloop].
      split; [left; reflexivity | constructor]. }
    rewrite Forall_forall in Hall. apply Hall. apply list_elem_of_In. exact Hin.
Qed.

Lemma C3_category_follows_header_witness :
  let w := Sample.world (Sample.at_time 2025 11 29 8 0 0) 200 200 in
  let lines :=
    ["EMS Incidents"; "Incident No."; "E25065067"; "FALL"; "OAK ST";
     "West Chester"; "11-29-2025 07:10:00"; "12"] in
  exists inc h3,
    scan_step w lines Sample.links 0
      {| cursor := 2; current_category := Some "EMS"; found := [] |} []
    = (Val (Continue {| cursor := 8; current_category := Some "EMS";
                        found := [] ++ [inc] |}), h3)
    /\ inc_id inc = "E25065067"
    /\ inc_category inc = "EMS".
Proof.
  cbv zeta. eexists _, _. split; [vm_compute; reflexivity|].
  split; [reflexivity|].
  eapply (proj1 (C3_category_follows_header
                   (Sample.world (Sample.at_time 2025 11 29 8 0 0) 200 200)
                   ["EMS Incidents"; "Incident No."; "E25065067"; "FALL"; "OAK ST";
                    "West Chester"; "11-29-2025 07:10:00"; "12"]
                   Sample.links 0)
            "EMS Incidents" "EMS" scan_start []
            {| cursor := 1; current_category := Some "EMS"; found := [] |} []
            {| cursor := 2; current_category := Some "EMS"; found := [] |} []).
  - right; left. reflexivity.
  - reflexivity.
  - reflexivity.
  - eapply quiet_turn; [reflexivity | reflexivity | apply quiet_refl].
  - vm_compute. reflexivity.
  - reflexivity.
Defined.

(** C3 as stated fails: a header line taken up as one of the six lines of a
    block does not change the category.  Here the first block has five
    lines of its own and takes "EMS Incidents" as its station, and the
    block "E25065067" after that line, with no other header in between, is
    given the category FIRE. *)
Lemma C3_counterexample_swallowed_header :
  let lines :=
    ["Fire Incidents"; "F25065066"; "FIRE ALARM";
     "LANCASTER AVE & COUNTRY CLUB DR"; "East Caln Township";
     "11-29-2025 00:31:04"; "EMS Incidents"; "E25065067"; "FALL"; "OAK ST";
     "West Chester"; "11-29-2025 07:10:00"; "12"] in
  let now := Sample.at_time 2025 11 29 8 0 0 in
  let w := Sample.world now 200 200 in
  line_at lines 6 = "EMS Incidents"
  /\ Forall (fun l => header_category l = None) (drop 7 lines)
  /\ exists inc1 inc2 h',
       scan_loop w lines Sample.links (cutoff_of now) (length lines) scan_start []
       = (Val [inc1; inc2], h')
       /\ inc_station inc1 = "EMS Incidents"
       /\ inc_id inc2 = "E25065067"
       /\ inc_raw_timestamp inc2 = "11-29-2025 07:10:00"
       /\ inc_category inc2 = "FIRE".
Proof.
  cbv zeta. split; [reflexivity|]. split.
  - repeat constructor.
  - eexists _, _, _. split; [vm_compute; reflexivity|].
    repeat split; reflexivity.
Qed.

(** ** The municipality filter *)

Lemma prefix_spec p s :
  String.prefix p s = true <-> exists post, s = p +:+ post.
Proof.
  revert s. induction p as [|a p IH]; intros s.
  - destruct s; cbn; split; eauto.
  - destruct s as [|b s].
    + cbn. split; [discriminate | intros (post & [=])].
    + rewrite prefix_cons. destruct (ascii_dec a b) as [<-|Hne].
      * rewrite IH. split; intros (post & Hpost); exists post.
        -- subst s. reflexivity.
        -- change (String a s = String a (p +:+ post)) in Hpost.
           injection Hpost as Hpost. exact Hpost.
      * split; [discriminate|]. intros (post & Hpost).
        change (String b s = String a (p +:+ post)) in Hpost. congruence.
Qed.

Lemma contains_spec key s : contains key s = true <-> is_substring key s.
Proof.
  unfold is_substring. induction s as [|c s IH].
  - cbn [contains]. rewrite orb_false_r, prefix_spec. split.
    + intros (post & ->). exists "", post. reflexivity.
    + intros ([|? pre] & post & H); [|discriminate]. exists post. exact H.
  - cbn [contains]. rewrite orb_true_iff, IH, prefix_spec. split.
    + intros [(post & ->)|(pre & post & ->)].
      * exists "", post. reflexivity.
      * exists (String c pre), post. reflexivity.
    + intros ([|a pre] & post & H).
      * left. exists post. exact H.
      * right. exists pre, post.
        change (String c s = String a (pre +:+ key +:+ post)) in H.
        injection H as _ H. exact H.
Qed.

Lemma keep_test_spec (filters : gset string) inc :
  existsb (fun key => contains key (inc_municipality inc)) (elements filters) = true
  <-> municipality_matches filters inc.
Proof.
  unfold municipality_matches. rewrite existsb_exists. split.
  - intros (key & Hin & Hc). exists key. split.
    + apply elem_of_elements, list_elem_of_In, Hin.
    + apply contains_spec, Hc.
  - intros (key & Hin & Hc). exists key. split.
    + apply list_elem_of_In, elem_of_elements, Hin.
    + apply contains_spec, Hc.
Qed.

#[global] Instance municipality_matches_dec filters inc :
  Decision (municipality_matches filters inc).
Proof.
  destruct (existsb (fun key => contains key (inc_municipality inc)) (elements filters))
    eqn:Htest.
  - left. apply keep_test_spec, Htest.
  - right. intros H. apply keep_test_spec in H. congruence.
Defined.

Lemma keep_fold_filter filters incs :
  forall acc,
    fold_left (keep_step filters) incs acc
    = acc ++ filter (municipality_matches filters) incs.
Proof.
  induction incs as [|inc incs IH]; intros acc; cbn [fold_left].
  - rewrite filter_nil, app_nil_r. reflexivity.
  - rewrite IH, filter_cons. unfold keep_step.
    destruct (decide (municipality_matches filters inc)) as [Hm|Hm].
    + apply keep_test_spec in Hm. rewrite Hm, <- app_assoc. reflexivity.
    + destruct (existsb _ _) eqn:Htest; [|reflexivity].
      apply keep_test_spec in Htest. contradiction.
Qed.

Lemma filter_incidents_spec cfg incs :
  filter_incidents cfg incs
  = if decide (TARGET_FILTERS cfg = ∅) then incs
    else filter (municipality_matches (TARGET_FILTERS cfg)) incs.
Proof.
  unfold filter_incidents.
  destruct (decide (TARGET_FILTERS cfg = ∅)) as [He|Hne].
  - rewrite bool_decide_eq_true_2 by exact He. reflexivity.
  - rewrite bool_decide_eq_false_2 by exact Hne. apply keep_fold_filter.
Qed.

(** C8.  With no configured text [filter_incidents] returns its list as it
    is; with some it keeps, in their order, exactly the incidents whose
    municipality contains one of the texts as a run of consecutive
    characters, case counting.  With the one text "East Caln" an incident
    of "East Caln Township" stays and one of "West Chester" goes, and with
    none both stay. *)
Theorem C8_filter_incidents cfg incs :
  (TARGET_FILTERS cfg = ∅ -> filter_incidents cfg incs = incs)
  /\ (TARGET_FILTERS cfg <> ∅ ->
      filter_incidents cfg incs
      = filter (municipality_matches (TARGET_FILTERS cfg)) incs)
  /\ (let a := Sample.incident_in "F25065066" "East Caln Township" in
      let b := Sample.incident_in "F25065067" "West Chester" in
      filter_incidents (Sample.settings {["East Caln"]}) [a; b] = [a]
      /\ filter_incidents (Sample.settings {["east caln"]}) [a; b] = []
      /\ filter_incidents (Sample.settings ∅) [a; b] = [a; b]).
Proof.
  rewrite filter_incidents_spec. split; [|split].
  - intros He. destruct (decide _); [reflexivity | contradiction].
  - intros Hne. destruct (decide _); [contradiction | reflexivity].
  - cbv zeta. repeat split; vm_compute; reflexivity.
Qed.

Lemma C8_filter_incidents_witness :
  let a := Sample.incident_in "F25065066" "East Caln Township" in
  let b := Sample.incident_in "F25065067" "West Chester" in
  filter_incidents (Sample.settings ∅) [a; b] = [a; b]
  /\ filter_incidents (Sample.settings {["East Caln"]}) [a; b]
     = filter (municipality_matches (TARGET_FILTERS (Sample.settings {["East Caln"]})))
         [a; b].
Proof.
  cbv zeta. split.
  - apply (proj1 (C8_filter_incidents (Sample.settings ∅) _)). reflexivity.
  - apply (proj1 (proj2 (C8_filter_incidents (Sample.settings {["East Caln"]}) _))).
    vm_compute. discriminate.
Defined.

(** ** The poll cycle *)

Lemma published_snoc h e :
  published (h ++ [e])
  = published h ++ match e with EvPublish _ p _ => [p] | _ => [] end.
Proof.
  unfold published. rewrite omap_app. destruct e; reflexivity.
Qed.

Lemma published_app h t : published (h ++ t) = published h ++ published t.
Proof. apply omap_app. Qed.

Lemma get_units_on_scene_published w url h r h' :
  get_units_on_scene w url h = (r, h') -> published h' = published h.
Proof.
  destruct (get_units_on_scene_cases w url h)
    as [(_ & ->)|[(_ & _ & ->)|(_ & ? & _ & _ & ->)]];
    intros [= _ <-]; rewrite ?published_snoc, ?app_nil_r; reflexivity.
Qed.

Lemma scan_step_published w lines links cutoff st h r h' :
  scan_step w lines links cutoff st h = (r, h') -> published h' = published h.
Proof.
  pose proof (get_units_on_scene_published w) as Hunits.
  unfold scan_step.
  repeat match goal with
         | |- context [if ?b then _ else _] => destruct b
         | |- context [match strptime ?s with _ => _ end] => destruct (strptime s)
         end;
    try (intros [= _ <-]; reflexivity).
  unfold bind.
  match goal with
  | |- context [get_units_on_scene w ?u h] =>
      destruct (get_units_on_scene w u h) as [[units|e|] h1] eqn:Hu
  end;
    intros [= _ <-]; eapply Hunits; exact Hu.
Qed.

Lemma scan_loop_published w lines links cutoff fuel :
  forall st h r h',
    scan_loop w lines links cutoff fuel st h = (r, h') ->
    published h' = published h.
Proof.
  induction fuel as [|fuel IH]; intros st h r h'; cbn [scan_loop];
    destruct (cursor st <? length lines)%nat;
    try (intros [= _ <-]; reflexivity).
  unfold bind.
  destruct (scan_step w lines links cutoff st h) as [[[st'|]|e|] h1] eqn:Hstep;
    apply scan_step_published in Hstep.
  - intros Hloop. apply IH in Hloop. congruence.
  - intros [= _ <-]. exact Hstep.
  - intros [= _ <-]. exact Hstep.
  - intros [= _ <-]. exact Hstep.
Qed.

Lemma get_incidents_published w h r h' :
  get_incidents w h = (r, h') -> published h' = published h.
Proof.
  unfold get_incidents, bind.
  destruct (try_fetch_cases w URL h) as [(rp & _ & _ & ->)|(_ & ->)].
  - unfold datetime_now. intros Hloop. apply scan_loop_published in Hloop.
    rewrite Hloop, !published_snoc, !app_nil_r. reflexivity.
  - intros [= _ <-]. rewrite published_snoc, app_nil_r. reflexivity.
Qed.

(** When the primary page cannot be fetched, [get_incidents] returns the
    empty list. *)
Lemma get_incidents_fetch_fails w h :
  fetch_fails w h URL -> get_incidents w h = (Val [], h ++ [EvGet URL]).
Proof.
  intros Hfail. unfold get_incidents, bind.
  destruct (try_fetch_cases w URL h) as [(r & Hr & Hst & _)|(_ & ->)].
  - unfold fetch_fails in Hfail. rewrite Hr in Hfail. contradiction.
  - reflexivity.
Qed.

(** What one turn of [while True] does. *)
Lemma poll_cycle_cases w cfg h :
  let h0 := h ++ [EvConnect (MQTT_HOST cfg) (MQTT_PORT cfg)] in
  (mqtt_connect w h <> None
   /\ poll_cycle w cfg h = (Val tt, h0 ++ [EvSleep (POLL_INTERVAL cfg)]))
  \/ (mqtt_connect w h = None
      /\ exists all h1 tail,
           get_incidents w h0 = (Val all, h1)
           /\ (tail = [] \/ tail = [EvDisconnect])
           /\ poll_cycle w cfg h
              = (Val tt,
                 h1 ++ [EvNow;
                        EvPublish (MQTT_TOPIC cfg)
                          {| last_update := clock w h1;
                             total_incidents := length all;
                             filtered_incidents := length (filter_incidents cfg all);
                             incidents := filter_incidents cfg all |} true]
                    ++ tail ++ [EvSleep (POLL_INTERVAL cfg)])).
Proof.
  intros h0.
  unfold poll_cycle, cycle_body, try_except, bind, call, sleep, ret, raise.
  destruct (mqtt_connect w h) as [[|]|] eqn:Hconn.
  - left. split; [discriminate | reflexivity].
  - left. split; [discriminate | reflexivity].
  - right. split; [reflexivity|].
    fold h0.
    destruct (get_incidents_val w h0) as (all & h1 & Hget).
    rewrite Hget. unfold datetime_now.
    destruct (mqtt_publish w (h1 ++ [EvNow])) as [e|].
    + exists all, h1, []. split; [reflexivity|]. split; [left; reflexivity|].
      rewrite <- !app_assoc. reflexivity.
    + exists all, h1, [EvDisconnect]. split; [reflexivity|].
      split; [right; reflexivity|].
      destruct (mqtt_disconnect w _); rewrite <- !app_assoc; reflexivity.
Qed.

Lemma poll_cycle_returns w cfg h :
  exists h', poll_cycle w cfg h = (Val tt, h').
Proof.
  destruct (poll_cycle_cases w cfg h)
    as [(_ & ->)|(_ & all & h1 & tail & _ & _ & ->)]; eauto.
Qed.

(** C6, as amended.  When the bus is connected and the fetch of the primary
    page fails, [get_incidents] returns the empty list and the turn hands
    the bus one payload, with both counts 0 and no incident; the turn ends
    with the sleep of the poll interval and the next turn follows. *)
Theorem C6_failed_fetch_publishes_empty w cfg h :
  mqtt_connect w h = None ->
  fetch_fails w (h ++ [EvConnect (MQTT_HOST cfg) (MQTT_PORT cfg)]) URL ->
  exists now tail,
    (tail = [] \/ tail = [EvDisconnect])
    /\ poll_cycle w cfg h
       = (Val tt,
          h ++ [EvConnect (MQTT_HOST cfg) (MQTT_PORT cfg); EvGet URL; EvNow;
                EvPublish (MQTT_TOPIC cfg)
                  {| last_update := now; total_incidents := 0;
                     filtered_incidents := 0; incidents := [] |} true]
            ++ tail ++ [EvSleep (POLL_INTERVAL cfg)])
    /\ forall n,
         poll_cycles w cfg (S n) h
         = poll_cycles w cfg n
             (h ++ [EvConnect (MQTT_HOST cfg) (MQTT_PORT cfg); EvGet URL; EvNow;
                    EvPublish (MQTT_TOPIC cfg)
                      {| last_update := now; total_incidents := 0;
                         filtered_incidents := 0; incidents := [] |} true]
                ++ tail ++ [EvSleep (POLL_INTERVAL cfg)]).
Proof.
  intros Hconn Hfail.
  destruct (poll_cycle_cases w cfg h)
    as [(Hne & _)|(_ & all & h1 & tail & Hget & Htail & Hcycle)];
    [contradiction|].
  rewrite (get_incidents_fetch_fails _ _ Hfail) in Hget.
  injection Hget as <- <-.
  assert (Hnil : filter_incidents cfg [] = []).
  { unfold filter_incidents. destruct (bool_decide _); reflexivity. }
  rewrite Hnil in Hcycle. cbn [length] in Hcycle.
  rewrite <- !app_assoc in Hcycle. cbn [app] in Hcycle.
  eexists _, tail.
  split; [exact Htail|]. split; [exact Hcycle|].
  intros n. cbn [poll_cycles]. unfold bind at 1. rewrite Hcycle. reflexivity.
Qed.

Lemma C6_failed_fetch_publishes_empty_witness :
  let now := Sample.at_time 2025 11 29 8 0 0 in
  let cfg := Sample.settings ∅ in
  exists now' tail,
    (tail = [] \/ tail = [EvDisconnect])
    /\ poll_cycle (Sample.offline now) cfg []
       = (Val tt,
          [] ++ [EvConnect (MQTT_HOST cfg) (MQTT_PORT cfg); EvGet URL; EvNow;
                 EvPublish (MQTT_TOPIC cfg)
                   {| last_update := now'; total_incidents := 0;
                      filtered_incidents := 0; incidents := [] |} true]
             ++ tail ++ [EvSleep (POLL_INTERVAL cfg)])
    /\ forall n,
         poll_cycles (Sample.offline now) cfg (S n) []
         = poll_cycles (Sample.offline now) cfg n
             ([] ++ [EvConnect (MQTT_HOST cfg) (MQTT_PORT cfg); EvGet URL; EvNow;
                     EvPublish (MQTT_TOPIC cfg)
                       {| last_update := now'; total_incidents := 0;
                          filtered_incidents := 0; incidents := [] |} true]
                 ++ tail ++ [EvSleep (POLL_INTERVAL cfg)]).
Proof.
  apply (C6_failed_fetch_publishes_empty
           (Sample.offline (Sample.at_time 2025 11 29 8 0 0)) (Sample.settings ∅) []).
  - reflexivity.
  - exact I.
Defined.

(** C6 as stated fails: with the network down, the turn still hands the bus
    a payload, the empty snapshot, before it sleeps. *)
Lemma C6_counterexample_publishes_empty_snapshot :
  let now := Sample.at_time 2025 11 29 8 0 0 in
  fetch_fails (Sample.offline now) [EvConnect "localhost" 1883] URL
  /\ poll_cycle (Sample.offline now) (Sample.settings ∅) []
     = (Val tt,
        [EvConnect "localhost" 1883; EvGet URL; EvNow;
         EvPublish "chesco/cad/official_summary"
           {| last_update := now; total_incidents := 0;
              filtered_incidents := 0; incidents := [] |} true;
         EvDisconnect; EvSleep 60])
  /\ published (snd (poll_cycle (Sample.offline now) (Sample.settings ∅) []))
     = [{| last_update := now; total_incidents := 0;
           filtered_incidents := 0; incidents := [] |}].
Proof.
  cbv zeta. split; [exact I|]. split; vm_compute; reflexivity.
Qed.

(** ** The payload *)

Lemma filter_incidents_sublist cfg incs :
  filter_incidents cfg incs `sublist_of` incs.
Proof.
  rewrite filter_incidents_spec. destruct (decide _).
  - reflexivity.
  - apply sublist_filter.
Qed.

Lemma poll_cycle_published w cfg h :
  exists new,
    published (snd (poll_cycle w cfg h)) = published h ++ new
    /\ Forall (payload_consistent w cfg) new.
Proof.
  destruct (poll_cycle_cases w cfg h)
    as [(_ & ->)|(_ & all & h1 & tail & Hget & Htail & ->)]; cbn [snd].
  - exists []. split; [|constructor].
    rewrite !published_snoc, !app_nil_r. reflexivity.
  - eexists [_]. split.
    + rewrite !published_app.
      rewrite (get_incidents_published _ _ _ _ Hget), published_app.
      destruct Htail as [->| ->]; cbn; rewrite ?app_nil_r; reflexivity.
    + constructor; [|constructor]. unfold payload_consistent. cbn.
      split; [reflexivity|]. split.
      * apply sublist_length, filter_incidents_sublist.
      * eexists all, _, h1. split; [exact Hget|].
        split; [reflexivity|]. split; [reflexivity|].
        apply filter_incidents_sublist.
Qed.

Lemma poll_cycles_published w cfg n :
  forall h, exists new,
    published (snd (poll_cycles w cfg n h)) = published h ++ new
    /\ Forall (payload_consistent w cfg) new.
Proof.
  induction n as [|n IH]; intros h; cbn [poll_cycles].
  - exists []. split; [cbn; rewrite app_nil_r; reflexivity | constructor].
  - unfold bind.
    destruct (poll_cycle_published w cfg h) as (new1 & Hpub1 & Hall1).
    destruct (poll_cycle_returns w cfg h) as (h1 & Hcycle).
    rewrite Hcycle in Hpub1 |- *. cbn [snd] in Hpub1.
    destruct (IH h1) as (new2 & Hpub2 & Hall2).
    exists (new1 ++ new2). split.
    + rewrite Hpub2, Hpub1, app_assoc. reflexivity.
    + apply Forall_app. split; assumption.
Qed.

(** C10.  Every payload that a run of [main_loop] hands to the bus has
    [filtered_incidents] equal to the length of its [incidents], at most
    [total_incidents], and its [incidents] are what the municipality filter
    keeps, in order and as they are, of the list that [get_incidents]
    returned and [total_incidents] counts. *)
Theorem C10_payload_counts_consistent w cfg n h :
  exists new,
    published (snd (main_loop w cfg n h)) = published h ++ new
    /\ Forall (payload_consistent w cfg) new.
Proof.
  unfold main_loop, bind.
  destruct (String.eqb (MQTT_USERNAME cfg) ""); cbn [ret].
  - apply poll_cycles_published.
  - destruct (poll_cycles_published w cfg n
                (h ++ [EvUsernamePwSet (MQTT_USERNAME cfg) (MQTT_PASSWORD cfg)]))
      as (new & Hpub & Hall).
    exists new. split; [|exact Hall].
    rewrite Hpub, published_snoc, app_nil_r. reflexivity.
Qed.

(** ** The unit extractor *)

(** *** Trimming and the tests on a comment line *)

Lemma isspace_lower_char c : isspace c = true -> lower_char c = c.
Proof.
  destruct c as [[|] [|] [|] [|] [|] [|] [|] [|]]; vm_compute; congruence.
Qed.

Lemma eq_ci_space a b :
  isspace (lower_char a) = false -> isspace b = true ->
  Ascii.eqb (lower_char a) (lower_char b) = false.
Proof.
  intros Ha Hb. rewrite (isspace_lower_char b Hb).
  destruct (Ascii.eqb_spec (lower_char a) b) as [Heq|]; [|reflexivity].
  congruence.
Qed.

Lemma prefix_lower p s :
  lower p = p -> String.prefix p (lower s) = prefix_ci p s.
Proof.
  revert s. induction p as [|a p IH]; intros s Hp.
  - destruct s; reflexivity.
  - destruct s as [|b s]; [reflexivity|].
    cbn [lower prefix_ci] in *. injection Hp as Ha Hp.
    rewrite prefix_cons, Ha, (IH s Hp).
    destruct (ascii_dec a (lower_char b)) as [->|Hne].
    + now rewrite Ascii.eqb_refl.
    + destruct (Ascii.eqb_spec a (lower_char b)); [contradiction | reflexivity].
Qed.

Lemma contains_lower p s :
  lower p = p -> contains p (lower s) = contains_ci p s.
Proof.
  intros Hp. induction s as [|c s IH].
  - cbn [contains contains_ci]. now rewrite <- (prefix_lower p "" Hp).
  - change (lower (String c s)) with (String (lower_char c) (lower s)).
    cbn [contains contains_ci]. rewrite IH.
    now rewrite <- (prefix_lower p (String c s) Hp).
Qed.

Lemma prefix_ci_space p b r :
  no_space_ci p = true -> isspace b = true ->
  prefix_ci p (String b r) = true -> p = "".
Proof.
  destruct p as [|a p]; [reflexivity|]. cbn [no_space_ci prefix_ci].
  intros Hp Hb. apply andb_true_iff in Hp as [Ha _]. apply negb_true_iff in Ha.
  now rewrite (eq_ci_space a b Ha Hb).
Qed.

Lemma contains_ci_lstrip p s :
  no_space_ci p = true -> contains_ci p (lstrip s) = contains_ci p s.
Proof.
  intros Hp. induction s as [|c s IH]; [reflexivity|].
  cbn [lstrip]. destruct (isspace c) eqn:Hc; [|reflexivity].
  rewrite IH. cbn [contains_ci].
  destruct (prefix_ci p (String c s)) eqn:Hpre; [|reflexivity].
  rewrite (prefix_ci_space p c s Hp Hc Hpre). now destruct s.
Qed.

Lemma prefix_ci_rstrip p :
  no_space_ci p = true -> forall s, prefix_ci p (rstrip s) = prefix_ci p s.
Proof.
  induction p as [|a p IH]; intros Hp s.
  - now destruct (rstrip s), s.
  - cbn [no_space_ci] in Hp. apply andb_true_iff in Hp as [Ha Hp].
    apply negb_true_iff in Ha.
    destruct s as [|c r]; [reflexivity|].
    rewrite rstrip_cons.
    destruct (String.eqb_spec (rstrip r) "") as [Hr|Hr]; cbn [andb].
    + destruct (isspace c) eqn:Hc; cbn [prefix_ci].
      * now rewrite (eq_ci_space a c Ha Hc).
      * now rewrite <- (IH Hp r), Hr.
    + cbn [prefix_ci]. now rewrite (IH Hp r).
Qed.

Lemma contains_ci_rstrip p s :
  no_space_ci p = true -> contains_ci p (rstrip s) = contains_ci p s.
Proof.
  intros Hp. induction s as [|c r IH]; [reflexivity|].
  cbn [contains_ci]. rewrite <- (prefix_ci_rstrip p Hp (String c r)), <- IH.
  rewrite rstrip_cons.
  destruct (String.eqb_spec (rstrip r) "") as [Hr|Hr]; cbn [andb].
  - destruct (isspace c); rewrite Hr; cbn [contains_ci]; now destruct (prefix_ci _ _).
  - reflexivity.
Qed.

Lemma contains_ci_strip p s :
  no_space_ci p = true -> contains_ci p (strip s) = contains_ci p s.
Proof.
  intros Hp. unfold strip. now rewrite contains_ci_rstrip, contains_ci_lstrip.
Qed.

(** The test on the lowered, trimmed line is the search without regard to
    case in the line as it stands. *)
Lemma mentions_scene line :
  contains "scene" (lower (strip line)) = contains_ci "scene" line.
Proof.
  rewrite contains_lower by reflexivity. now apply contains_ci_strip.
Qed.

Lemma contains_char_cons a c r :
  contains (String a "") (String c r)
  = Ascii.eqb a c || contains (String a "") r.
Proof.
  cbn [contains]. rewrite prefix_cons.
  destruct (ascii_dec a c) as [->|Hne].
  - rewrite Ascii.eqb_refl. now destruct r.
  - destruct (Ascii.eqb_spec a c); [contradiction | reflexivity].
Qed.

Lemma eqb_space a c :
  isspace a = false -> isspace c = true -> Ascii.eqb a c = false.
Proof.
  intros Ha Hc. destruct (Ascii.eqb_spec a c); [congruence | reflexivity].
Qed.

Lemma contains_char_lstrip a s :
  isspace a = false ->
  contains (String a "") (lstrip s) = contains (String a "") s.
Proof.
  intros Ha. induction s as [|c s IH]; [reflexivity|].
  cbn [lstrip]. destruct (isspace c) eqn:Hc; [|reflexivity].
  now rewrite IH, contains_char_cons, (eqb_space a c Ha Hc).
Qed.

Lemma contains_char_rstrip a s :
  isspace a = false ->
  contains (String a "") (rstrip s) = contains (String a "") s.
Proof.
  intros Ha. induction s as [|c r IH]; [reflexivity|].
  rewrite contains_char_cons, <- IH, rstrip_cons.
  destruct (String.eqb_spec (rstrip r) "") as [Hr|Hr]; cbn [andb].
  - rewrite Hr. destruct (isspace c) eqn:Hc.
    + now rewrite (eqb_space a c Ha Hc).
    + now rewrite contains_char_cons.
  - now rewrite contains_char_cons.
Qed.

Lemma has_separator line :
  contains ">" (strip line) = contains ">" line.
Proof.
  unfold strip.
  now rewrite contains_char_rstrip, contains_char_lstrip by reflexivity.
Qed.

Lemma before_lstrip a s :
  isspace a = false -> before a (lstrip s) = lstrip (before a s).
Proof.
  intros Ha. induction s as [|c s IH]; [reflexivity|].
  cbn [lstrip before]. destruct (isspace c) eqn:Hc.
  - rewrite IH. rewrite Ascii.eqb_sym, (eqb_space a c Ha Hc).
    cbn [lstrip]. now rewrite Hc.
  - cbn [before]. destruct (Ascii.eqb c a); [reflexivity|].
    cbn [lstrip]. now rewrite Hc.
Qed.

Lemma before_rstrip a s :
  isspace a = false -> contains (String a "") s = true ->
  before a (rstrip s) = before a s.
Proof.
  intros Ha. induction s as [|c r IH]; [reflexivity|].
  rewrite contains_char_cons, rstrip_cons. intros Hin.
  destruct (Ascii.eqb_spec a c) as [<-|Hne].
  - rewrite Ha, andb_false_r. cbn [before]. now rewrite Ascii.eqb_refl.
  - cbn [orb] in Hin.
    assert (Hr : String.eqb (rstrip r) "" = false).
    { destruct (String.eqb_spec (rstrip r) "") as [Hr|]; [|reflexivity].
      rewrite <- (contains_char_rstrip a r Ha), Hr in Hin. discriminate. }
    rewrite Hr. cbn [andb before]. now rewrite (IH Hin).
Qed.

Lemma split_lstrip s : split (lstrip s) = split s.
Proof.
  induction s as [|c s IH]; [reflexivity|].
  cbn [lstrip]. destruct (isspace c) eqn:Hc; [|reflexivity].
  rewrite IH. cbn [split]. now rewrite Hc.
Qed.

(** With a separator in the line, trimming the line changes no token before
    the separator. *)
Lemma tokens_before_separator line :
  contains ">" line = true ->
  split (before ">" (strip line)) = split (before ">" line).
Proof.
  intros Hin. unfold strip.
  rewrite before_rstrip; [|reflexivity|].
  - rewrite before_lstrip by reflexivity. apply split_lstrip.
  - now rewrite contains_char_lstrip.
Qed.

(** *** Tokens *)

Lemma split_tokens s :
  Forall (fun t => t <> "" /\ no_space t = true) (split s).
Proof.
  induction s as [|c r IH]; [constructor|].
  cbn [split]. destruct (isspace c) eqn:Hc; [exact IH|].
  assert (Hone : String c "" <> "" /\ no_space (String c "") = true).
  { split; [discriminate|]. cbn. now rewrite Hc. }
  destruct r as [|d r']; [repeat constructor; apply Hone|].
  destruct (isspace d).
  - constructor; [exact Hone | exact IH].
  - destruct (split (String d r')) as [|t ts]; [repeat constructor; apply Hone|].
    inversion IH as [|? ? [_ Ht] Hts]; subst.
    constructor; [|exact Hts]. split; [discriminate|].
    cbn [no_space]. now rewrite Hc, Ht.
Qed.

Lemma strip_no_space t : no_space t = true -> strip t = t.
Proof.
  intros Ht. unfold strip.
  assert (Hl : lstrip t = t).
  { destruct t as [|c r]; [reflexivity|]. cbn in *.
    apply andb_true_iff in Ht as [Hc _]. apply negb_true_iff in Hc. now rewrite Hc. }
  rewrite Hl. clear Hl. induction t as [|c r IH]; [reflexivity|].
  cbn [no_space] in Ht. apply andb_true_iff in Ht as [Hc Hr].
  apply negb_true_iff in Hc.
  rewrite rstrip_cons, (IH Hr), Hc, andb_false_r. reflexivity.
Qed.

Lemma last_In {A} (l : list A) x : last l = Some x -> In x l.
Proof.
  intros H. apply last_Some in H as [l' ->].
  apply in_or_app. right. left. reflexivity.
Qed.

(** One turn of the loop takes the unit that the line names and adds it if
    it is new. *)
Lemma units_step_spec units line :
  units_step units line
  = match spec_unit_of line with
    | Some unit => add_unit units unit
    | None => units
    end.
Proof.
  unfold units_step, spec_unit_of, add_unit.
  rewrite mentions_scene, has_separator.
  destruct (contains_ci "scene" line); cbn [negb andb]; [|reflexivity].
  destruct (contains ">" line) eqn:Hsep; cbn [negb]; [|reflexivity].
  rewrite (tokens_before_separator line Hsep).
  destruct (last (split (before ">" line))) as [t|] eqn:Hlast; [|reflexivity].
  pose proof (split_tokens (before ">" line)) as Htok.
  rewrite Forall_forall in Htok.
  destruct (Htok t) as [Hne Hns]; [apply list_elem_of_In, last_In, Hlast|].
  rewrite (strip_no_space t Hns).
  destruct (String.eqb_spec t ""); [contradiction|]. cbn [negb andb].
  now destruct (existsb (String.eqb t) units).
Qed.

(** *** First-seen order *)

Lemma filter_filter_comm {A} (f g : A -> bool) l :
  List.filter f (List.filter g l) = List.filter g (List.filter f l).
Proof.
  induction l as [|x l IH]; [reflexivity|]. cbn [List.filter].
  destruct (f x) eqn:Hf, (g x) eqn:Hg; cbn [List.filter];
    rewrite ?Hf, ?Hg, IH; reflexivity.
Qed.

Lemma filter_absorb {A} (f g : A -> bool) l :
  (forall y, f y = true -> g y = true) ->
  List.filter f (List.filter g l) = List.filter f l.
Proof.
  intros Himp. induction l as [|x l IH]; [reflexivity|]. cbn [List.filter].
  destruct (g x) eqn:Hg; cbn [List.filter].
  - now rewrite IH.
  - rewrite IH. destruct (f x) eqn:Hf; [|reflexivity].
    apply Himp in Hf. congruence.
Qed.

Lemma dedup_first_filter f l :
  dedup_first (List.filter f l) = List.filter f (dedup_first l).
Proof.
  induction l as [|x l IH]; [reflexivity|]. cbn [List.filter dedup_first].
  destruct (f x) eqn:Hf.
  - cbn [dedup_first List.filter]. rewrite IH. f_equal. apply filter_filter_comm.
  - rewrite IH. symmetry. apply filter_absorb.
    intros y Hy. destruct (String.eqb_spec x y) as [->|]; [congruence | reflexivity].
Qed.

Lemma dedup_first_In l x : In x (dedup_first l) <-> In x l.
Proof.
  induction l as [|y l IH]; [reflexivity|]. cbn [dedup_first In].
  rewrite filter_In, IH. split.
  - intros [->|[Hin _]]; auto.
  - intros [->|Hin]; [auto|].
    destruct (String.eqb_spec y x) as [->|]; auto.
Qed.

Lemma dedup_first_NoDup l : List.NoDup (dedup_first l).
Proof.
  induction l as [|x l IH]; cbn [dedup_first]; constructor.
  - rewrite filter_In. intros [_ Hx]. now rewrite String.eqb_refl in Hx.
  - now apply List.NoDup_filter.
Qed.

Lemma fold_units_step lines :
  forall acc,
    fold_left units_step lines acc
    = fold_left add_unit (omap spec_unit_of lines) acc.
Proof.
  induction lines as [|line lines IH]; intros acc; [reflexivity|].
  cbn [fold_left]. rewrite IH, units_step_spec.
  replace (omap spec_unit_of (line :: lines))
    with (match spec_unit_of line with
          | Some u => u :: omap spec_unit_of lines
          | None => omap spec_unit_of lines
          end) by reflexivity.
  now destruct (spec_unit_of line).
Qed.

Lemma existsb_snoc (u : string) acc v :
  existsb (String.eqb u) (acc ++ [v])
  = existsb (String.eqb u) acc || String.eqb u v.
Proof.
  rewrite existsb_app. cbn. now rewrite orb_false_r.
Qed.

Lemma filter_filter_and {A} (f g : A -> bool) l :
  List.filter f (List.filter g l) = List.filter (fun x => g x && f x) l.
Proof.
  induction l as [|x l IH]; [reflexivity|]. cbn [List.filter].
  destruct (g x); cbn [List.filter andb]; [|exact IH].
  destruct (f x); now rewrite IH.
Qed.

(** The accumulating loop keeps what it has and adds the new texts, each at
    its first occurrence. *)
Lemma fold_add_unit us :
  forall acc,
    fold_left add_unit us acc
    = acc ++ dedup_first
               (List.filter (fun u => negb (existsb (String.eqb u) acc)) us).
Proof.
  induction us as [|u us IH]; intros acc; cbn [fold_left List.filter].
  - cbn. now rewrite app_nil_r.
  - rewrite IH. unfold add_unit.
    destruct (existsb (String.eqb u) acc) eqn:Hin; cbn [negb]; [reflexivity|].
    cbn [dedup_first]. rewrite <- app_assoc. cbn [app]. do 2 f_equal.
    rewrite <- dedup_first_filter, filter_filter_and. f_equal.
    apply List.filter_ext. intros v.
    now rewrite existsb_snoc, negb_orb, (String.eqb_sym u v).
Qed.

Lemma units_of_lines_spec lines : units_of_lines lines = spec_units lines.
Proof.
  unfold units_of_lines, spec_units.
  rewrite fold_units_step, fold_add_unit. cbn [app]. f_equal.
  apply forallb_filter_id, forallb_forall. reflexivity.
Qed.

(** C5.  For every list of comment lines the extractor returns the units
    named by the lines that mention "scene" in any case and have a [>],
    the unit of a line being the last white-space-separated token before
    its first [>], each unit once and in the order of first appearance; so
    does [get_units_on_scene] on the lines of a page it could fetch; and
    the three sample lines give ENG45 and TWR1, in that order. *)
Theorem C5_units_on_scene :
  (forall lines, units_of_lines lines = spec_units lines)
  /\ (forall lines,
        List.NoDup (units_of_lines lines)
        /\ forall u, In u (units_of_lines lines) <-> In (Some u) (map spec_unit_of lines))
  /\ (forall w url h r,
        url <> "" ->
        http_get w h url = Reply r ->
        ~ (400 <= status_code r < 600)%Z ->
        get_units_on_scene w url h
        = (Val (spec_units (nonblank_lines (text (body r)))), h ++ [EvGet url]))
  /\ units_of_lines ["ENG45> On Scene"; "ENG45> On Scene"; "TWR1> At Scene"]
     = ["ENG45"; "TWR1"].
Proof.
  split; [exact units_of_lines_spec|]. split; [|split].
  - intros lines. rewrite units_of_lines_spec. unfold spec_units. split.
    + apply dedup_first_NoDup.
    + intros u. rewrite dedup_first_In, <- list_elem_of_In, list_elem_of_omap.
      rewrite in_map_iff. split.
      * intros (line & Hin & Hu). exists line. split; [exact Hu|].
        apply list_elem_of_In, Hin.
      * intros (line & Hu & Hin). exists line. split; [|exact Hu].
        apply list_elem_of_In, Hin.
  - intros w url h r Hne Hr Hst.
    destruct (get_units_on_scene_cases w url h)
      as [(-> & _)|[(_ & Hfail & _)|(_ & r' & Hr' & _ & ->)]].
    + congruence.
    + unfold fetch_fails in Hfail. rewrite Hr in Hfail. contradiction.
    + rewrite units_of_lines_spec. congruence.
  - reflexivity.
Qed.

Lemma C5_units_on_scene_witness :
  let w := Sample.world (Sample.at_time 2025 11 29 8 0 0) 200 200 in
  let url := "https://webcad.chesco.org/WebCad/" +:+ Sample.comments_href in
  get_units_on_scene w url []
  = (Val (spec_units (nonblank_lines (text Sample.comments_page))), [] ++ [EvGet url]).
Proof.
  apply (proj1 (proj2 (proj2 C5_units_on_scene))
           (Sample.world (Sample.at_time 2025 11 29 8 0 0) 200 200)
           ("https://webcad.chesco.org/WebCad/" +:+ Sample.comments_href) []
           {| status_code := 200; body := Sample.comments_page |}).
  - discriminate.
  - reflexivity.
  - cbn [status_code]. lia.
Defined.

(** * Further properties *)

(** ** What a scan returns *)

(** One turn of the scanning loop either adds nothing and asks nothing, or
    adds the incident of the block at the cursor. *)
Lemma scan_step_cases w lines links cutoff st h r h' :
  scan_step w lines links cutoff st h = (r, h') ->
  (h' = h
   /\ (r = Val Break
       \/ exists st', r = Val (Continue st')
                      /\ (cursor st < cursor st')%nat
                      /\ found st' = found st))
  \/ exists inc,
       from_block lines cutoff (cursor st) inc
       /\ inc_category inc = or_unknown (current_category st)
       /\ inc_description inc
          = inc_location inc +:+ " | " +:+ inc_municipality inc +:+ " | "
            +:+ inc_type inc +:+ " | " +:+ inc_category inc +:+ " | Stn "
            +:+ inc_station inc
       /\ inc_comments_url inc = default "" (links !! inc_id inc)
       /\ get_units_on_scene w (inc_comments_url inc) h
          = (Val (inc_units_on_scene inc), h')
       /\ r = Val (Continue {| cursor := cursor st + 6;
                               current_category := current_category st;
                               found := found st ++ [inc] |}).
Proof.
  pose proof (get_units_on_scene_val w) as Hunits.
  unfold scan_step.
  destruct (String.eqb (line_at lines (cursor st)) "Fire Incidents").
  { intros [= <- <-]. left. split; [reflexivity|]. right. eexists.
    split; [reflexivity|]. cbn. split; [lia | reflexivity]. }
  destruct (String.eqb (line_at lines (cursor st)) "EMS Incidents").
  { intros [= <- <-]. left. split; [reflexivity|]. right. eexists.
    split; [reflexivity|]. cbn. split; [lia | reflexivity]. }
  destruct (String.eqb (line_at lines (cursor st)) "Traffic Incidents").
  { intros [= <- <-]. left. split; [reflexivity|]. right. eexists.
    split; [reflexivity|]. cbn. split; [lia | reflexivity]. }
  destruct (startswith "Incident No." (line_at lines (cursor st))
            || startswith "Last Updated" (line_at lines (cursor st))).
  { intros [= <- <-]. left. split; [reflexivity|]. right. eexists.
    split; [reflexivity|]. cbn. split; [lia | reflexivity]. }
  destruct (id_re_match (line_at lines (cursor st))) eqn:Hid; cbn [negb].
  2:{ intros [= <- <-]. left. split; [reflexivity|]. right. eexists.
      split; [reflexivity|]. cbn. split; [lia | reflexivity]. }
  destruct (Nat.leb_spec (length lines) (cursor st + 5)) as [Hlen|Hlen].
  { intros [= <- <-]. left. split; [reflexivity|]. left. reflexivity. }
  destruct (ts_re_match (strip (line_at lines (cursor st + 4)))) eqn:Hre; cbn [negb].
  2:{ intros [= <- <-]. left. split; [reflexivity|]. right. eexists.
      split; [reflexivity|]. cbn. split; [lia | reflexivity]. }
  destruct (strptime (strip (line_at lines (cursor st + 4)))) as [dt|] eqn:Hts.
  2:{ intros [= <- <-]. left. split; [reflexivity|]. right. eexists.
      split; [reflexivity|]. cbn. split; [lia | reflexivity]. }
  unfold dt_lt. destruct (Z.ltb_spec (to_us dt) cutoff) as [Hold|Hnew].
  { intros [= <- <-]. left. split; [reflexivity|]. right. eexists.
    split; [reflexivity|]. cbn. split; [lia | reflexivity]. }
  unfold bind.
  match goal with
  | |- context [get_units_on_scene w ?u h] =>
      destruct (Hunits u h) as (units & h1 & Hu); rewrite Hu
  end.
  intros [= <- <-]. right. eexists. split; [|split; [|split; [|split; [|split]]]].
  6: reflexivity.
  - unfold from_block. cbn. repeat split; try reflexivity; assumption.
  - reflexivity.
  - reflexivity.
  - reflexivity.
  - cbn. exact Hu.
Qed.

(** A property of the loop variables and the trace that every turn keeps
    holds when the loop is left. *)
Lemma scan_loop_keeps w lines links cutoff (I : scan_state -> list event -> Prop) :
  (forall st h st' h',
      I st h ->
      scan_step w lines links cutoff st h = (Val (Continue st'), h') ->
      I st' h') ->
  forall fuel st h incs h',
    I st h ->
    scan_loop w lines links cutoff fuel st h = (Val incs, h') ->
    exists st', I st' h' /\ found st' = incs.
Proof.
  intros Hkeep. induction fuel as [|fuel IH]; intros st h incs h' HI; cbn [scan_loop].
  - destruct (cursor st <? length lines)%nat; [discriminate|].
    intros [= <- <-]. eauto.
  - destruct (cursor st <? length lines)%nat.
    + unfold bind.
      destruct (scan_step w lines links cutoff st h) as [[[st1|]|e|] h1] eqn:Hstep.
      * intros Hloop. eapply IH; [|exact Hloop]. eapply Hkeep; eassumption.
      * intros [= <- <-].
        destruct (scan_step_cases _ _ _ _ _ _ _ _ Hstep)
          as [(-> & _)|(inc & _ & _ & _ & _ & _ & [=])].
        eauto.
      * discriminate.
      * discriminate.
    + intros [= <- <-]. eauto.
Qed.

Lemma spaced_snoc starts : forall lo i,
  spaced lo starts -> (end_of lo starts <= i)%nat -> spaced lo (starts ++ [i]).
Proof.
  induction starts as [|j starts IH]; intros lo i Hsp Hend; cbn in *.
  - split; [exact Hend | exact I].
  - destruct Hsp as [Hlo Hsp]. split; [exact Hlo|]. now apply IH.
Qed.

Lemma end_of_snoc starts : forall lo i, end_of lo (starts ++ [i]) = (i + 6)%nat.
Proof.
  induction starts as [|j starts IH]; intros lo i; cbn; [reflexivity | apply IH].
Qed.

Lemma spaced_room starts : forall lo,
  spaced lo starts -> (lo + 6 * length starts <= end_of lo starts)%nat.
Proof.
  induction starts as [|j starts IH]; intros lo Hsp; cbn in *; [lia|].
  destruct Hsp as [Hlo Hsp]. specialize (IH _ Hsp). lia.
Qed.

(** The incidents of a scan are those of blocks of six lines that follow
    one another in the page. *)
Lemma scan_loop_blocks w lines links cutoff fuel h incs h' :
  scan_loop w lines links cutoff fuel scan_start h = (Val incs, h') ->
  exists starts,
    Forall2 (from_block lines cutoff) starts incs
    /\ spaced 0 starts
    /\ (end_of 0 starts <= length lines)%nat.
Proof.
  intros Hloop.
  destruct (scan_loop_keeps w lines links cutoff
              (fun st _ => exists starts,
                   Forall2 (from_block lines cutoff) starts (found st)
                   /\ spaced 0 starts
                   /\ (end_of 0 starts <= cursor st)%nat
                   /\ (end_of 0 starts <= length lines)%nat))
    with (fuel := fuel) (st := scan_start) (h := h) (incs := incs) (h' := h')
    as (st' & (starts & Hall & Hsp & _ & Hlen) & <-).
  - intros st hh st' hh' (starts & Hall & Hsp & Hcur & Hlen) Hstep.
    destruct (scan_step_cases _ _ _ _ _ _ _ _ Hstep)
      as [(_ & [[=]|(st1 & [= ->] & Hadv & Hfound)])|(inc & Hblock & _ & _ & _ & _ & [= ->])].
    + exists starts. rewrite Hfound. repeat split; try assumption. lia.
    + exists (starts ++ [cursor st]). cbn [found cursor].
      pose proof Hblock as (Hin & _).
      split; [apply Forall2_app; [exact Hall | constructor; [exact Hblock | constructor]]|].
      split; [apply spaced_snoc; assumption|].
      rewrite end_of_snoc. split; lia.
  - exists []. cbn. repeat split; try constructor; lia.
  - exact Hloop.
  - eauto.
Qed.

Lemma skip_digits_all_digits r :
  skip_digits r = "" \/ skip_digits r = String (ascii_of_N 10) "" ->
  exists ds, no_space ds = true
             /\ (r = ds \/ r = ds +:+ String (ascii_of_N 10) "")
             /\ skip_digits ds = "".
Proof.
  induction r as [|c r IH]; cbn [skip_digits].
  - intros _. exists "". auto.
  - destruct (isdigit c) eqn:Hc.
    + intros H. destruct (IH H) as (ds & Hns & Hr & Hsk).
      exists (String c ds). cbn [no_space skip_digits].
      rewrite (isdigit_not_space c Hc), Hc. cbn. split; [exact Hns|].
      split; [|exact Hsk]. destruct Hr as [->| ->]; auto.
    + intros [[=]|[= -> ->]]. exists "". auto.
Qed.

Lemma rstrip_line_feed x : rstrip (x +:+ String (ascii_of_N 10) "") = rstrip x.
Proof.
  induction x as [|a x IH]; [reflexivity|].
  change (String a x +:+ String (ascii_of_N 10) "")
    with (String a (x +:+ String (ascii_of_N 10) "")).
  now rewrite !rstrip_cons, IH.
Qed.

(** Trimming a line of the ID shape leaves a text of the ID shape with no
    white space in it. *)
Lemma id_re_match_strip line :
  id_re_match line = true ->
  id_re_match (strip line) = true /\ no_space (strip line) = true /\ strip line <> ""
  /\ (line = strip line \/ line = strip line +:+ String (ascii_of_N 10) "").
Proof.
  intros Hid. destruct (id_re_match_inv line Hid) as (c & d & r & -> & Hc & Hd).
  unfold id_re_match in Hid. cbn [match_classes] in Hid. rewrite Hc, Hd in Hid.
  apply at_dollar_inv in Hid.
  destruct (skip_digits_all_digits r Hid) as (ds & Hns & Hr & Hsk).
  assert (Hcs : isspace c = false).
  { destruct (isspace c) eqn:Hs; [|reflexivity]. exfalso. revert Hc Hs.
    destruct c as [[|] [|] [|] [|] [|] [|] [|] [|]]; vm_compute; congruence. }
  assert (Hstrip : strip (String c (String d r)) = String c (String d ds)).
  { assert (Hnsp : no_space (String c (String d ds)) = true).
    { cbn [no_space]. now rewrite Hcs, (isdigit_not_space d Hd), Hns. }
    destruct Hr as [->| ->]; [now apply strip_no_space|].
    pose proof (strip_no_space _ Hnsp) as Hs. unfold strip in *.
    cbn [lstrip] in *. rewrite Hcs in *.
    change (String c (String d (ds +:+ String (ascii_of_N 10) "")))
      with (String c (String d ds) +:+ String (ascii_of_N 10) "").
    now rewrite rstrip_line_feed. }
  rewrite Hstrip. split; [|split; [|split; [discriminate|]]].
  - unfold id_re_match. cbn [match_classes]. now rewrite Hc, Hd, Hsk.
  - cbn [no_space]. now rewrite Hcs, (isdigit_not_space d Hd), Hns.
  - destruct Hr as [->| ->]; [now left | now right].
Qed.

Lemma rstrip_idem s : rstrip (rstrip s) = rstrip s.
Proof.
  induction s as [|c r IH]; [reflexivity|].
  rewrite rstrip_cons.
  destruct (String.eqb (rstrip r) "" && isspace c) eqn:Hc; [reflexivity|].
  now rewrite rstrip_cons, IH, Hc.
Qed.

Lemma lstrip_head s :
  lstrip s = "" \/ exists c r, lstrip s = String c r /\ isspace c = false.
Proof.
  induction s as [|c r IH]; [now left|].
  cbn [lstrip]. destruct (isspace c) eqn:Hc; [exact IH|]. right. eauto.
Qed.

(** Trimming a trimmed text changes nothing. *)
Lemma strip_idem s : strip (strip s) = strip s.
Proof.
  unfold strip. destruct (lstrip_head s) as [->|(c & r & -> & Hc)]; [reflexivity|].
  assert (E : rstrip (String c r) = String c (rstrip r)).
  { now rewrite rstrip_cons, Hc, andb_false_r. }
  rewrite E. cbn [lstrip]. rewrite Hc.
  now rewrite rstrip_cons, rstrip_idem, Hc, andb_false_r.
Qed.

(** X1.  The incidents that a scan returns are, in their order, those of
    blocks of six lines of the page that share no line: the block of the
    next incident starts behind the block of the one before.  There are
    therefore at most a sixth as many incidents as lines. *)
Theorem X1_incidents_come_from_disjoint_blocks
    w lines links cutoff fuel h incs h' :
  scan_loop w lines links cutoff fuel scan_start h = (Val incs, h') ->
  (exists starts,
      Forall2 (from_block lines cutoff) starts incs
      /\ spaced 0 starts
      /\ (end_of 0 starts <= length lines)%nat)
  /\ (6 * length incs <= length lines)%nat.
Proof.
  intros Hloop.
  destruct (scan_loop_blocks _ _ _ _ _ _ _ _ Hloop) as (starts & Hall & Hsp & Hend).
  split; [eauto|].
  pose proof (spaced_room starts 0 Hsp) as Hroom.
  rewrite <- (Forall2_length _ _ _ Hall). lia.
Qed.

Lemma X1_incidents_come_from_disjoint_blocks_witness :
  let now := Sample.at_time 2025 11 29 8 0 0 in
  let w := Sample.world now 200 200 in
  exists incs h',
    scan_loop w Sample.main_lines Sample.links (cutoff_of now) 8 scan_start []
    = (Val incs, h')
    /\ length incs = 1%nat
    /\ ((exists starts,
            Forall2 (from_block Sample.main_lines (cutoff_of now)) starts incs
            /\ spaced 0 starts
            /\ (end_of 0 starts <= length Sample.main_lines)%nat)
        /\ (6 * length incs <= length Sample.main_lines)%nat).
Proof.
  cbv zeta. eexists _, _. split; [vm_compute; reflexivity|].
  split; [reflexivity|].
  eapply (X1_incidents_come_from_disjoint_blocks
            (Sample.world (Sample.at_time 2025 11 29 8 0 0) 200 200)
            Sample.main_lines Sample.links
            (cutoff_of (Sample.at_time 2025 11 29 8 0 0)) 8 []).
  vm_compute. reflexivity.
Defined.

(** X2.  Every incident that a scan returns has an id of the ID shape with
    no white space in it, a raw time stamp of the strict shape that parses
    to the time of the incident, a time not older than the cutoff, and
    text fields that are trimmed. *)
Theorem X2_incident_fields_are_valid w lines links cutoff fuel h incs h' inc :
  scan_loop w lines links cutoff fuel scan_start h = (Val incs, h') ->
  In inc incs ->
  id_re_match (inc_id inc) = true
  /\ no_space (inc_id inc) = true
  /\ ts_re_match (inc_raw_timestamp inc) = true
  /\ strptime (inc_raw_timestamp inc) = Some (inc_timestamp inc)
  /\ (cutoff <= to_us (inc_timestamp inc))%Z
  /\ Forall (fun field => strip field = field)
       [inc_id inc; inc_type inc; inc_location inc; inc_municipality inc;
        inc_raw_timestamp inc; inc_station inc].
Proof.
  intros Hloop Hin.
  destruct (scan_loop_blocks _ _ _ _ _ _ _ _ Hloop) as (starts & Hall & _ & _).
  apply list_elem_of_In in Hin.
  destruct (proj1 (list_elem_of_lookup _ _) Hin) as (k & Hk).
  destruct (Forall2_lookup_r _ _ _ _ _ Hall Hk)
    as (i & _ & (_ & Hid & Hi & Hty & Hlo & Hmu & Hraw & Hstn & Hre & Hts & Hcut)).
  destruct (id_re_match_strip _ Hid) as (Hid' & Hns & _).
  rewrite Hi. repeat split; try assumption.
  rewrite <- Hi, Hi, Hty, Hlo, Hmu, Hraw, Hstn.
  repeat constructor; apply strip_idem.
Qed.

Lemma X2_incident_fields_are_valid_witness :
  let now := Sample.at_time 2025 11 29 8 0 0 in
  let w := Sample.world now 200 200 in
  exists inc h',
    scan_loop w Sample.main_lines Sample.links (cutoff_of now) 8 scan_start []
    = (Val [inc], h')
    /\ inc_id inc = "F25065066"
    /\ (id_re_match (inc_id inc) = true
        /\ no_space (inc_id inc) = true
        /\ ts_re_match (inc_raw_timestamp inc) = true
        /\ strptime (inc_raw_timestamp inc) = Some (inc_timestamp inc)
        /\ (cutoff_of now <= to_us (inc_timestamp inc))%Z
        /\ Forall (fun field => strip field = field)
             [inc_id inc; inc_type inc; inc_location inc; inc_municipality inc;
              inc_raw_timestamp inc; inc_station inc]).
Proof.
  cbv zeta. eexists _, _. split; [vm_compute; reflexivity|].
  split; [reflexivity|].
  eapply (X2_incident_fields_are_valid
            (Sample.world (Sample.at_time 2025 11 29 8 0 0) 200 200)
            Sample.main_lines Sample.links
            (cutoff_of (Sample.at_time 2025 11 29 8 0 0)) 8 []).
  - vm_compute. reflexivity.
  - left. reflexivity.
Defined.

(** ** What the unit extractor returns *)

Lemma contains_char_nil a : contains (String a "") "" = false.
Proof. reflexivity. Qed.

Lemma before_without a s : contains (String a "") (before a s) = false.
Proof.
  induction s as [|c s IH]; [reflexivity|].
  cbn [before]. destruct (Ascii.eqb_spec c a) as [->|Hne]; [reflexivity|].
  rewrite contains_char_cons, IH.
  destruct (Ascii.eqb_spec a c); [congruence | reflexivity].
Qed.

Lemma split_tokens_without a s :
  contains (String a "") s = false ->
  Forall (fun t => contains (String a "") t = false) (split s).
Proof.
  induction s as [|c r IH]; [constructor|].
  rewrite contains_char_cons, orb_false_iff. intros [Hc Hr]. specialize (IH Hr).
  assert (Hone : contains (String a "") (String c "") = false).
  { now rewrite contains_char_cons, Hc. }
  cbn [split]. destruct (isspace c); [exact IH|].
  destruct r as [|d r']; [repeat constructor; exact Hone|].
  destruct (isspace d).
  - constructor; [exact Hone | exact IH].
  - destruct (split (String d r')) as [|t ts]; [repeat constructor; exact Hone|].
    inversion IH as [|? ? Ht Hts]; subst.
    constructor; [|exact Hts]. now rewrite contains_char_cons, Hc, Ht.
Qed.

Lemma append_assoc (a b c : string) : (a +:+ b) +:+ c = a +:+ b +:+ c.
Proof.
  induction a as [|x a IH]; [reflexivity|].
  change (String x ((a +:+ b) +:+ c) = String x (a +:+ b +:+ c)). now rewrite IH.
Qed.

Lemma is_substring_cons c t s : is_substring t s -> is_substring t (String c s).
Proof.
  intros (pre & post & ->). exists (String c pre), post. reflexivity.
Qed.

Lemma split_cons c s :
  split (String c s)
  = if isspace c then split s
    else match s with
         | EmptyString => [String c EmptyString]
         | String d _ =>
             if isspace d then String c EmptyString :: split s
             else match split s with
                  | t :: ts => String c t :: ts
                  | [] => [String c EmptyString]
                  end
         end.
Proof. reflexivity. Qed.

(** The first token of a text that starts with no white space starts the
    text. *)
Lemma split_first_prefix s : forall c t ts,
  isspace c = false -> split (String c s) = t :: ts ->
  exists post, String c s = t +:+ post.
Proof.
  induction s as [|d s IH]; intros c t ts Hc; rewrite split_cons, Hc.
  - intros [= <- <-]. now exists "".
  - destruct (isspace d) eqn:Hd.
    + intros [= <- _]. now exists (String d s).
    + destruct (split (String d s)) as [|t' ts'] eqn:Hs.
      * intros [= <- _]. now exists (String d s).
      * intros [= <- _]. destruct (IH d t' ts' Hd Hs) as (post & Hpost).
        exists post. rewrite Hpost. reflexivity.
Qed.

(** Every token is a run of consecutive characters of the text. *)
Lemma split_tokens_substring s :
  Forall (fun t => is_substring t s) (split s).
Proof.
  induction s as [|c r IH]; [constructor|].
  assert (Hone : is_substring (String c "") (String c r)).
  { exists "", r. reflexivity. }
  assert (Hrest : Forall (fun t => is_substring t (String c r)) (split r)).
  { eapply Forall_impl; [exact IH|]. intros t. apply is_substring_cons. }
  destruct (isspace c) eqn:Hc.
  { rewrite split_cons, Hc. exact Hrest. }
  destruct (split (String c r)) as [|t ts] eqn:Hsplit; [constructor|].
  destruct (split_first_prefix r c t ts Hc Hsplit) as (post & Hpost).
  constructor; [exists "", post; exact Hpost|].
  rewrite split_cons, Hc in Hsplit.
  destruct r as [|d r']; [injection Hsplit as _ <-; constructor|].
  destruct (isspace d).
  - injection Hsplit as _ <-. exact Hrest.
  - destruct (split (String d r')) as [|t' ts'].
    + injection Hsplit as _ <-. constructor.
    + injection Hsplit as _ <-. now inversion Hrest.
Qed.

Lemma before_prefix a s : exists post, s = before a s +:+ post.
Proof.
  induction s as [|c s (post & IH)]; [now exists ""|].
  cbn [before]. destruct (Ascii.eqb c a).
  - exists (String c s). reflexivity.
  - exists post. change (String c s = String c (before a s +:+ post)).
    now rewrite <- IH.
Qed.

Lemma is_substring_trans t u s :
  is_substring t u -> is_substring u s -> is_substring t s.
Proof.
  intros (p1 & q1 & ->) (p2 & q2 & ->).
  exists (p2 +:+ p1), (q1 +:+ q2). now rewrite !append_assoc.
Qed.

(** The unit that a line names is a token of it: not empty, free of white
    space and of [>], and a run of consecutive characters of the line, which
    mentions "scene". *)
Lemma spec_unit_of_valid line u :
  spec_unit_of line = Some u ->
  u <> "" /\ no_space u = true /\ contains ">" u = false
  /\ is_substring u line /\ contains_ci "scene" line = true
  /\ contains ">" line = true.
Proof.
  unfold spec_unit_of.
  destruct (contains_ci "scene" line) eqn:Hsc; [|discriminate].
  destruct (contains ">" line) eqn:Hsep; [|discriminate].
  cbn [andb]. intros Hlast. apply last_In in Hlast.
  pose proof (split_tokens (before ">" line)) as H1.
  pose proof (split_tokens_without ">" _ (before_without ">" line)) as H2.
  pose proof (split_tokens_substring (before ">" line)) as H3.
  rewrite Forall_forall in H1, H2, H3. apply list_elem_of_In in Hlast.
  destruct (H1 u Hlast) as [Hne Hns].
  repeat split; try assumption; [now apply H2|].
  eapply is_substring_trans; [now apply H3|].
  destruct (before_prefix ">" line) as (post & Hpost).
  exists "", post. exact Hpost.
Qed.

Lemma units_of_lines_In lines u :
  In u (units_of_lines lines) <-> exists line, In line lines /\ spec_unit_of line = Some u.
Proof.
  rewrite units_of_lines_spec. unfold spec_units.
  rewrite dedup_first_In, <- list_elem_of_In, list_elem_of_omap.
  split; intros (line & Hin & Hu); exists line; split; try assumption;
    now apply list_elem_of_In.
Qed.

(** X3.  Every unit that the extractor returns is a token taken from one of
    the lines: it is not empty, has no white space and no [>] in it, and is
    a run of consecutive characters of a line that mentions "scene" and has
    a [>]; and the list has no unit twice. *)
Theorem X3_units_are_tokens_of_scene_lines lines :
  List.NoDup (units_of_lines lines)
  /\ forall u, In u (units_of_lines lines) ->
       u <> "" /\ no_space u = true /\ contains ">" u = false
       /\ exists line, In line lines /\ is_substring u line
                       /\ contains_ci "scene" line = true
                       /\ contains ">" line = true.
Proof.
  split.
  - rewrite units_of_lines_spec. apply dedup_first_NoDup.
  - intros u Hin. apply units_of_lines_In in Hin as (line & Hin & Hu).
    destruct (spec_unit_of_valid line u Hu) as (H1 & H2 & H3 & H4 & H5 & H6).
    repeat split; try assumption. exists line. auto.
Qed.

Lemma X3_units_are_tokens_of_scene_lines_witness :
  In "ENG45" (units_of_lines Sample.comment_lines)
  /\ ("ENG45" <> "" /\ no_space "ENG45" = true /\ contains ">" "ENG45" = false
      /\ exists line, In line Sample.comment_lines /\ is_substring "ENG45" line
                      /\ contains_ci "scene" line = true
                      /\ contains ">" line = true).
Proof.
  assert (Hin : In "ENG45" (units_of_lines Sample.comment_lines)).
  { left. reflexivity. }
  split; [exact Hin|].
  exact (proj2 (X3_units_are_tokens_of_scene_lines Sample.comment_lines) "ENG45" Hin).
Defined.

Lemma spec_unit_of_strip line : spec_unit_of (strip line) = spec_unit_of line.
Proof.
  unfold spec_unit_of.
  rewrite (contains_ci_strip "scene" line eq_refl), has_separator.
  destruct (contains_ci "scene" line); [|reflexivity].
  destruct (contains ">" line) eqn:Hsep; [|reflexivity].
  cbn [andb]. now rewrite tokens_before_separator.
Qed.

Lemma dedup_first_length l : (length (dedup_first l) <= length l)%nat.
Proof.
  induction l as [|x l IH]; [reflexivity|]. cbn [dedup_first length].
  pose proof (List.filter_length_le (fun y => negb (String.eqb x y)) (dedup_first l)).
  lia.
Qed.

Lemma omap_length {A B} (f : A -> option B) l : (length (omap f l) <= length l)%nat.
Proof.
  induction l as [|x l IH]; [reflexivity|].
  replace (omap f (x :: l))
    with (match f x with Some y => y :: omap f l | None => omap f l end)
    by reflexivity.
  destruct (f x); cbn [length]; lia.
Qed.

(** X4.  The extractor reads its lines in order and never goes back on a
    unit: the units of a list of lines followed by more lines are the units
    of the list, followed by those units of the further lines that are new.
    White space around a line makes no difference, and there are at most as
    many units as lines. *)
Theorem X4_units_grow_with_the_lines :
  (forall l1 l2, exists more,
      units_of_lines (l1 ++ l2) = units_of_lines l1 ++ more
      /\ forall u, In u more <->
                   In u (units_of_lines l2) /\ ~ In u (units_of_lines l1))
  /\ (forall lines, units_of_lines (map strip lines) = units_of_lines lines)
  /\ (forall lines, (length (units_of_lines lines) <= length lines)%nat).
Proof.
  split; [|split].
  - intros l1 l2.
    exists (dedup_first
              (List.filter
                 (fun u => negb (existsb (String.eqb u) (units_of_lines l1)))
                 (omap spec_unit_of l2))).
    split.
    + unfold units_of_lines at 1. rewrite fold_left_app.
      fold (units_of_lines l1). now rewrite fold_units_step, fold_add_unit.
    + intros u. rewrite dedup_first_In, filter_In, negb_true_iff.
      rewrite (units_of_lines_spec l2). unfold spec_units. rewrite dedup_first_In.
      apply and_iff_compat_l. split.
      * intros Hno Hin. apply not_true_iff_false in Hno. apply Hno.
        apply existsb_exists. exists u. split; [exact Hin | apply String.eqb_refl].
      * intros Hno. apply not_true_iff_false. intros Hex. apply Hno.
        apply existsb_exists in Hex as (v & Hv & Heq).
        apply String.eqb_eq in Heq. now subst.
  - intros lines. rewrite !units_of_lines_spec. unfold spec_units. f_equal.
    induction lines as [|line lines IH]; [reflexivity|].
    change (map strip (line :: lines)) with (strip line :: map strip lines).
    replace (omap spec_unit_of (strip line :: map strip lines))
      with (match spec_unit_of (strip line) with
            | Some u => u :: omap spec_unit_of (map strip lines)
            | None => omap spec_unit_of (map strip lines)
            end) by reflexivity.
    replace (omap spec_unit_of (line :: lines))
      with (match spec_unit_of line with
            | Some u => u :: omap spec_unit_of lines
            | None => omap spec_unit_of lines
            end) by reflexivity.
    now rewrite spec_unit_of_strip, IH.
  - intros lines. rewrite units_of_lines_spec. unfold spec_units.
    pose proof (dedup_first_length (omap spec_unit_of lines)).
    pose proof (omap_length spec_unit_of lines). lia.
Qed.

(** ** The derived fields and the requests of a scan *)

Lemma get_units_on_scene_result w url h units h' :
  get_units_on_scene w url h = (Val units, h') ->
  List.NoDup units
  /\ (url = "" -> units = [])
  /\ h' = h ++ (if String.eqb url "" then [] else [EvGet url]).
Proof.
  destruct (get_units_on_scene_cases w url h)
    as [(-> & ->)|[(Hne & _ & ->)|(Hne & r & _ & _ & ->)]]; intros [= <- <-].
  - split; [constructor|]. split; [reflexivity|]. cbn. now rewrite app_nil_r.
  - split; [constructor|]. split; [contradiction|].
    destruct (String.eqb_spec url ""); [contradiction | reflexivity].
  - split; [rewrite units_of_lines_spec; apply dedup_first_NoDup|].
    split; [contradiction|].
    destruct (String.eqb_spec url ""); [contradiction | reflexivity].
Qed.

Lemma fetched_snoc incs inc :
  fetched (incs ++ [inc])
  = fetched incs
    ++ (if String.eqb (inc_comments_url inc) "" then [] else [EvGet (inc_comments_url inc)]).
Proof.
  unfold fetched. rewrite map_app, List.filter_app, map_app. f_equal.
  cbn. now destruct (String.eqb (inc_comments_url inc) "").
Qed.

Lemma scan_loop_derived_fields w lines links cutoff fuel h incs h' :
  scan_loop w lines links cutoff fuel scan_start h = (Val incs, h') ->
  Forall (derived_fields links) incs.
Proof.
  intros Hloop.
  destruct (scan_loop_keeps w lines links cutoff
              (fun st _ => Forall (derived_fields links) (found st)))
    with (fuel := fuel) (st := scan_start) (h := h) (incs := incs) (h' := h')
    as (st' & Hall & <-); [| constructor | exact Hloop | exact Hall].
  intros st hh st' hh' Hall Hstep.
  destruct (scan_step_cases _ _ _ _ _ _ _ _ Hstep)
    as [(_ & [[=]|(st1 & [= ->] & _ & Hfound)])
       |(inc & _ & _ & Hdesc & Hurl & Hunits & [= ->])].
  - now rewrite Hfound.
  - cbn [found]. apply Forall_app. split; [exact Hall|].
    constructor; [|constructor].
    destruct (get_units_on_scene_result _ _ _ _ _ Hunits) as (Hnd & Hnil & _).
    unfold derived_fields. auto.
Qed.

(** X5.  In every incident that a scan returns the description is made of
    the incident's own location, municipality, type, category and station,
    the comments address is the one recorded for the incident's id, or
    empty when none is, an incident with no comments address has no units
    on scene, and no unit is listed twice. *)
Theorem X5_derived_fields_agree w lines links cutoff fuel h incs h' :
  scan_loop w lines links cutoff fuel scan_start h = (Val incs, h') ->
  Forall (derived_fields links) incs.
Proof. apply scan_loop_derived_fields. Qed.

Lemma X5_derived_fields_agree_witness :
  let now := Sample.at_time 2025 11 29 8 0 0 in
  let w := Sample.world now 200 200 in
  exists incs h',
    scan_loop w Sample.main_lines Sample.links (cutoff_of now) 8 scan_start []
    = (Val incs, h')
    /\ length incs = 1%nat
    /\ Forall (derived_fields Sample.links) incs.
Proof.
  cbv zeta. eexists _, _. split; [vm_compute; reflexivity|].
  split; [reflexivity|].
  eapply (X5_derived_fields_agree
            (Sample.world (Sample.at_time 2025 11 29 8 0 0) 200 200)
            Sample.main_lines Sample.links
            (cutoff_of (Sample.at_time 2025 11 29 8 0 0)) 8 []).
  vm_compute. reflexivity.
Defined.

Lemma scan_loop_trace w lines links cutoff fuel h incs h' :
  scan_loop w lines links cutoff fuel scan_start h = (Val incs, h') ->
  h' = h ++ fetched incs.
Proof.
  intros Hloop.
  destruct (scan_loop_keeps w lines links cutoff
              (fun st hh => hh = h ++ fetched (found st)))
    with (fuel := fuel) (st := scan_start) (h := h) (incs := incs) (h' := h')
    as (st' & Htrace & <-); [| cbn; now rewrite app_nil_r | exact Hloop | exact Htrace].
  intros st hh st' hh' -> Hstep.
  destruct (scan_step_cases _ _ _ _ _ _ _ _ Hstep)
    as [(-> & [[=]|(st1 & [= ->] & _ & Hfound)])
       |(inc & _ & _ & _ & _ & Hunits & [= ->])].
  - now rewrite Hfound.
  - cbn [found]. rewrite fetched_snoc, app_assoc.
    now destruct (get_units_on_scene_result _ _ _ _ _ Hunits) as (_ & _ & ->).
Qed.

Lemma requests_fetched incs : (requests (fetched incs) <= length incs)%nat.
Proof.
  unfold requests, fetched.
  rewrite (List.filter_length_le _ _), length_map.
  rewrite (List.filter_length_le _ _), length_map. reflexivity.
Qed.

(** X6.  [get_incidents] asks for the primary page once; when that fails
    it asks nothing more and returns no incident; otherwise it reads the
    clock once and then asks for one comments page for every incident it
    returns that has a comments address, in the order of the incidents, and
    for nothing else: at most one request more than there are incidents. *)
Theorem X6_requests_of_get_incidents w h :
  exists incs,
    ((fetch_fails w h URL /\ incs = []
      /\ get_incidents w h = (Val [], h ++ [EvGet URL]))
     \/ (~ fetch_fails w h URL
         /\ get_incidents w h
            = (Val incs, h ++ [EvGet URL; EvNow] ++ fetched incs)))
    /\ (requests (fetched incs) <= length incs)%nat.
Proof.
  destruct (get_incidents_val w h) as (incs & h' & Hget).
  exists incs. split; [|apply requests_fetched].
  revert Hget. unfold get_incidents, bind.
  destruct (try_fetch_cases w URL h) as [(r & Hr & Hst & ->)|(Hfail & ->)].
  - unfold datetime_now. intros Hloop. right. split.
    + unfold fetch_fails. now rewrite Hr.
    + rewrite Hloop. f_equal. apply scan_loop_trace in Hloop.
      rewrite Hloop, <- !app_assoc. reflexivity.
  - intros [= <- <-]. left. auto.
Qed.

(** ** The link resolver *)

(** What one anchor does to the address recorded for [k]. *)
Lemma links_step_lookup base m a k :
  links_step base m a !! k
  = if is_comments_anchor a && String.eqb (fst a) k
    then Some (base URL (snd a))
    else m !! k.
Proof.
  destruct a as [text href]. unfold links_step, is_comments_anchor. cbn [fst snd].
  destruct (String.eqb text ""); cbn [orb negb andb]; [reflexivity|].
  destruct (String.eqb href ""); cbn [orb negb andb]; [reflexivity|].
  destruct (contains "livecadcomments" (lower href)); cbn [andb]; [|reflexivity].
  destruct (String.eqb_spec text k) as [->|Hne].
  - apply lookup_insert_eq.
  - now apply lookup_insert_ne.
Qed.

(** Anchors that record nothing for [k] leave its address as it is. *)
Lemma links_fold_keeps base k post : forall m,
  (forall href, In (k, href) post -> is_comments_anchor (k, href) = false) ->
  fold_left (links_step base) post m !! k = m !! k.
Proof.
  induction post as [|[text href] post IH]; intros m Hpost; [reflexivity|].
  cbn [fold_left]. rewrite IH by (intros; apply Hpost; now right).
  rewrite links_step_lookup. cbn [fst snd].
  destruct (String.eqb_spec text k) as [->|]; [|now rewrite andb_false_r].
  now rewrite (Hpost href (or_introl eq_refl)).
Qed.

Lemma links_fold_sound base k anchors : forall m v,
  fold_left (links_step base) anchors m !! k = Some v ->
  m !! k = Some v
  \/ exists href, In (k, href) anchors
                  /\ is_comments_anchor (k, href) = true
                  /\ v = base URL href.
Proof.
  induction anchors as [|[text href] anchors IH]; intros m v; cbn [fold_left].
  - now left.
  - intros Hv. destruct (IH _ _ Hv) as [Hm|(href' & Hin & Hq & ->)].
    + rewrite links_step_lookup in Hm. cbn [fst snd] in Hm.
      destruct (is_comments_anchor (text, href)) eqn:Hq; cbn [andb] in Hm;
        [|now left].
      destruct (String.eqb_spec text k) as [->|]; [|now left].
      injection Hm as <-. right. exists href. split; [now left | auto].
    + right. exists href'. split; [now right | auto].
Qed.

(** X7.  The link resolver records an address for the text [k] exactly when
    some anchor with the text [k] has an address that contains
    "livecadcomments" in any case; the address recorded is that of the last
    such anchor, resolved against the page's address; and no address is
    recorded for the empty text. *)
Theorem X7_last_comments_anchor_wins base anchors k :
  (links_of_anchors base anchors !! k = None <->
   forall href, In (k, href) anchors -> is_comments_anchor (k, href) = false)
  /\ (forall pre href post,
        anchors = pre ++ (k, href) :: post ->
        is_comments_anchor (k, href) = true ->
        (forall href', In (k, href') post -> is_comments_anchor (k, href') = false) ->
        links_of_anchors base anchors !! k = Some (base URL href))
  /\ (forall v,
        links_of_anchors base anchors !! k = Some v ->
        k <> ""
        /\ exists href, In (k, href) anchors
                        /\ contains "livecadcomments" (lower href) = true
                        /\ v = base URL href).
Proof.
  assert (Hlast : forall pre href post,
             anchors = pre ++ (k, href) :: post ->
             is_comments_anchor (k, href) = true ->
             (forall href', In (k, href') post ->
                            is_comments_anchor (k, href') = false) ->
             links_of_anchors base anchors !! k = Some (base URL href)).
  { intros pre href post -> Hq Hpost. unfold links_of_anchors.
    rewrite fold_left_app. cbn [fold_left].
    rewrite links_fold_keeps by exact Hpost.
    rewrite links_step_lookup. cbn [fst snd]. now rewrite Hq, String.eqb_refl. }
  assert (Hsound : forall v,
             links_of_anchors base anchors !! k = Some v ->
             exists href, In (k, href) anchors
                          /\ is_comments_anchor (k, href) = true
                          /\ v = base URL href).
  { intros v Hv. destruct (links_fold_sound _ _ _ _ _ Hv) as [Hm|H]; [|exact H].
    rewrite lookup_empty in Hm. discriminate. }
  split; [|split; [exact Hlast|]].
  - split.
    + intros Hnone href Hin.
      destruct (is_comments_anchor (k, href)) eqn:Hq; [|reflexivity]. exfalso.
      (* the last recording anchor behind this one would be recorded *)
      assert (Hex : exists pre href0 post,
                 anchors = pre ++ (k, href0) :: post
                 /\ is_comments_anchor (k, href0) = true
                 /\ forall href', In (k, href') post ->
                                  is_comments_anchor (k, href') = false).
      { clear -Hin Hq. revert href Hin Hq.
        induction anchors as [|a anchors IH]; intros href Hin Hq; [contradiction|].
        destruct (List.existsb
                    (fun b => String.eqb (fst b) k && is_comments_anchor b) anchors)
          eqn:Hlater.
        - apply existsb_exists in Hlater as ([t' h'] & Hin' & Hb).
          cbn [fst] in Hb. apply andb_true_iff in Hb as [Ht Hq'].
          apply String.eqb_eq in Ht. subst t'.
          destruct (IH h' Hin' Hq') as (pre & href0 & post & -> & H1 & H2).
          exists (a :: pre), href0, post. auto.
        - destruct Hin as [->|Hin].
          + exists [], href, anchors. split; [reflexivity|]. split; [exact Hq|].
            intros href' Hin'.
            destruct (is_comments_anchor (k, href')) eqn:Hq'; [|reflexivity].
            assert (Hcontra : List.existsb
                      (fun b => String.eqb (fst b) k && is_comments_anchor b)
                      anchors = true).
            { apply existsb_exists. exists (k, href'). split; [exact Hin'|].
              cbn [fst]. now rewrite String.eqb_refl, Hq'. }
            congruence.
          + assert (Hcontra : List.existsb
                      (fun b => String.eqb (fst b) k && is_comments_anchor b)
                      anchors = true).
            { apply existsb_exists. exists (k, href). split; [exact Hin|].
              cbn [fst]. now rewrite String.eqb_refl, Hq. }
            congruence. }
      destruct Hex as (pre & href0 & post & Heq & H1 & H2).
      rewrite (Hlast pre href0 post Heq H1 H2) in Hnone. discriminate.
    + intros Hall.
      destruct (links_of_anchors base anchors !! k) as [v|] eqn:Hv; [|reflexivity].
      destruct (Hsound v eq_refl) as (href & Hin & Hq & _).
      rewrite (Hall href Hin) in Hq. discriminate.
  - intros v Hv. destruct (Hsound v Hv) as (href & Hin & Hq & ->).
    unfold is_comments_anchor in Hq. cbn [fst snd] in Hq.
    apply andb_true_iff in Hq as [Hq Hc]. apply andb_true_iff in Hq as [Hk _].
    split.
    + intros ->. discriminate.
    + exists href. auto.
Qed.

Lemma X7_last_comments_anchor_wins_witness :
  let anchors :=
    [("F25065066", "old.asp?LiveCadComments=1"); ("Home", "index.asp");
     ("F25065066", "livecadcomments.asp?eid=2"); ("F25065066", "")] in
  links_of_anchors (fun _ href => href) anchors !! "F25065066"
  = Some "livecadcomments.asp?eid=2".
Proof.
  apply (proj1 (proj2 (X7_last_comments_anchor_wins (fun _ href => href)
                         [("F25065066", "old.asp?LiveCadComments=1"); ("Home", "index.asp");
                          ("F25065066", "livecadcomments.asp?eid=2"); ("F25065066", "")]
                         "F25065066"))
           [("F25065066", "old.asp?LiveCadComments=1"); ("Home", "index.asp")]
           "livecadcomments.asp?eid=2" [("F25065066", "")]).
  - reflexivity.
  - reflexivity.
  - intros href' [[= <-]|[]]. reflexivity.
Defined.

(** ** The lines of a page *)







(** ** The municipality filter and its settings *)

Lemma filter_incidents_In cfg incs inc :
  In inc (filter_incidents cfg incs)
  <-> In inc incs
      /\ (TARGET_FILTERS cfg = ∅ \/ municipality_matches (TARGET_FILTERS cfg) inc).
Proof.
  rewrite filter_incidents_spec. destruct (decide (TARGET_FILTERS cfg = ∅)) as [He|Hne].
  - tauto.
  - rewrite <- !list_elem_of_In, list_elem_of_filter. tauto.
Qed.

(** X9.  Filtering is stable: filtering a filtered list again changes
    nothing, filtering two lists one after the other is filtering them
    joined, and a filter with fewer texts, not none, gives the same whether
    or not a filter with more texts has run before it. *)
Theorem X9_filter_incidents_composes cfg :
  (forall incs,
      filter_incidents cfg (filter_incidents cfg incs) = filter_incidents cfg incs)
  /\ (forall incs1 incs2,
        filter_incidents cfg (incs1 ++ incs2)
        = filter_incidents cfg incs1 ++ filter_incidents cfg incs2)
  /\ (forall wider incs,
        TARGET_FILTERS cfg <> ∅ ->
        TARGET_FILTERS cfg ⊆ TARGET_FILTERS wider ->
        filter_incidents cfg (filter_incidents wider incs)
        = filter_incidents cfg incs).
Proof.
  split; [|split].
  - intros incs. rewrite !filter_incidents_spec.
    destruct (decide (TARGET_FILTERS cfg = ∅)); [reflexivity|].
    now apply list_filter_filter_l.
  - intros incs1 incs2. rewrite !filter_incidents_spec.
    destruct (decide (TARGET_FILTERS cfg = ∅)); [reflexivity|]. apply filter_app.
  - intros wider incs Hne Hsub. rewrite !filter_incidents_spec.
    destruct (decide (TARGET_FILTERS cfg = ∅)); [contradiction|].
    destruct (decide (TARGET_FILTERS wider = ∅)) as [He|_]; [reflexivity|].
    apply list_filter_filter_l.
    intros inc (key & Hin & Hsubstr). exists key. split; [|exact Hsubstr].
    now apply Hsub.
Qed.

Lemma X9_filter_incidents_composes_witness :
  let a := Sample.incident_in "F25065066" "East Caln Township" in
  let b := Sample.incident_in "F25065067" "West Chester" in
  let c := Sample.incident_in "F25065068" "Tredyffrin" in
  filter_incidents (Sample.settings {["East Caln"]})
    (filter_incidents (Sample.settings {["East Caln"; "West Chester"]}) [a; b; c])
  = filter_incidents (Sample.settings {["East Caln"]}) [a; b; c].
Proof.
  apply (proj2 (proj2 (X9_filter_incidents_composes (Sample.settings {["East Caln"]})))
           (Sample.settings {["East Caln"; "West Chester"]})).
  - vm_compute. discriminate.
  - cbn [TARGET_FILTERS Sample.settings]. set_solver.
Defined.

Lemma contains_char_snoc a cur c :
  contains (String a "") (cur +:+ String c "")
  = contains (String a "") cur || Ascii.eqb a c.
Proof.
  induction cur as [|x cur IH].
  - change ("" +:+ String c "") with (String c "").
    now rewrite contains_char_cons, contains_char_nil, orb_false_r.
  - change (String x cur +:+ String c "") with (String x (cur +:+ String c "")).
    now rewrite !contains_char_cons, IH, orb_assoc.
Qed.

Lemma split_comma_from_no_comma s : forall cur,
  contains "," cur = false ->
  Forall (fun piece => contains "," piece = false) (split_comma_from cur s).
Proof.
  induction s as [|c s IH]; intros cur Hcur; cbn [split_comma_from].
  - repeat constructor. exact Hcur.
  - destruct (Ascii.eqb_spec c ",") as [->|Hne].
    + constructor; [exact Hcur | now apply IH].
    + apply IH. rewrite contains_char_snoc, Hcur.
      destruct (Ascii.eqb_spec "," c); [congruence | reflexivity].
Qed.

Lemma lstrip_suffix s : exists pre, s = pre +:+ lstrip s.
Proof.
  induction s as [|c s (pre & IH)]; [now exists ""|].
  cbn [lstrip]. destruct (isspace c); [|now exists ""].
  exists (String c pre). change (String c s = String c (pre +:+ lstrip s)).
  now rewrite <- IH.
Qed.

Lemma rstrip_prefix s : exists post, s = rstrip s +:+ post.
Proof.
  induction s as [|c s (post & IH)]; [now exists ""|].
  rewrite rstrip_cons. destruct (String.eqb (rstrip s) "" && isspace c).
  - now exists (String c s).
  - exists post. change (String c s = String c (rstrip s +:+ post)).
    now rewrite <- IH.
Qed.

Lemma strip_substring s : is_substring (strip s) s.
Proof.
  unfold strip. destruct (lstrip_suffix s) as (pre & Hpre).
  destruct (rstrip_prefix (lstrip s)) as (post & Hpost).
  exists pre, post. now rewrite <- Hpost.
Qed.

(** X10.  The configured filter texts are exactly the pieces of the
    environment variable between its commas, trimmed, that are not empty:
    each is trimmed and holds no comma, and a variable with nothing but
    commas and white space configures none. *)
Theorem X10_target_filters_are_trimmed_pieces env :
  (forall key,
      key ∈ target_filters_of env <->
      key <> "" /\ exists piece, In piece (split_comma_from "" env) /\ key = strip piece)
  /\ (forall key,
        key ∈ target_filters_of env ->
        strip key = key /\ contains "," key = false)
  /\ (Forall (fun piece => strip piece = "") (split_comma_from "" env) ->
      target_filters_of env = ∅).
Proof.
  assert (Hiff : forall key,
             key ∈ target_filters_of env <->
             key <> "" /\ exists piece, In piece (split_comma_from "" env)
                                        /\ key = strip piece).
  { intros key. unfold target_filters_of.
    rewrite elem_of_list_to_set, list_elem_of_In, in_map_iff. split.
    - intros (piece & <- & Hin). apply filter_In in Hin as [Hin Hne]. split.
      + intros Heq. rewrite Heq in Hne. discriminate.
      + eauto.
    - intros (Hne & piece & Hin & ->). exists piece. split; [reflexivity|].
      apply filter_In. split; [exact Hin|].
      destruct (String.eqb_spec (strip piece) ""); [contradiction | reflexivity]. }
  split; [exact Hiff|]. split.
  - intros key Hkey. apply Hiff in Hkey as (_ & piece & Hin & ->).
    split; [apply strip_idem|].
    pose proof (split_comma_from_no_comma env "" eq_refl) as Hno.
    rewrite Forall_forall in Hno.
    specialize (Hno piece (proj2 (list_elem_of_In _ _) Hin)).
    destruct (contains "," (strip piece)) eqn:Hc; [|reflexivity].
    apply contains_spec in Hc.
    pose proof (is_substring_trans _ _ _ Hc (strip_substring piece)) as Hsub.
    apply contains_spec in Hsub. congruence.
  - intros Hblank. apply set_eq. intros key. rewrite Hiff. split.
    + intros (Hne & piece & Hin & ->). rewrite Forall_forall in Hblank.
      now rewrite (Hblank piece (proj2 (list_elem_of_In _ _) Hin)) in Hne.
    + intros Hin. now apply not_elem_of_empty in Hin.
Qed.

Lemma X10_target_filters_are_trimmed_pieces_witness :
  "East Caln" ∈ target_filters_of " East Caln , ,West Chester,"
  /\ (strip "East Caln" = "East Caln" /\ contains "," "East Caln" = false)
  /\ target_filters_of " , ," = ∅.
Proof.
  assert (Hin : "East Caln" ∈ target_filters_of " East Caln , ,West Chester,").
  { vm_compute. set_solver. }
  split; [exact Hin|]. split.
  - exact (proj1 (proj2 (X10_target_filters_are_trimmed_pieces
                           " East Caln , ,West Chester,")) "East Caln" Hin).
  - apply (proj2 (proj2 (X10_target_filters_are_trimmed_pieces " , ,"))).
    repeat constructor.
Defined.

(** X11.  Since no configured text is empty, a filter with some text never
    keeps an incident whose municipality is empty. *)
Theorem X11_no_municipality_never_passes env cfg incs inc :
  TARGET_FILTERS cfg = target_filters_of env ->
  TARGET_FILTERS cfg <> ∅ ->
  inc_municipality inc = "" ->
  ~ In inc (filter_incidents cfg incs).
Proof.
  intros Hcfg Hne Hmuni Hin.
  apply filter_incidents_In in Hin as [_ [He|(key & Hkey & pre & post & Hsub)]];
    [contradiction|].
  rewrite Hcfg in Hkey.
  assert (Hk : key <> "").
  { unfold target_filters_of in Hkey.
    rewrite elem_of_list_to_set, list_elem_of_In, in_map_iff in Hkey.
    destruct Hkey as (piece & <- & Hp). apply filter_In in Hp as [_ Hp].
    intros Heq. rewrite Heq in Hp. discriminate. }
  rewrite Hmuni in Hsub. destruct pre; [|discriminate].
  destruct key; [contradiction | discriminate].
Qed.

Lemma X11_no_municipality_never_passes_witness :
  let cfg := Sample.settings (target_filters_of "East Caln") in
  let a := Sample.incident_in "F25065066" "" in
  let b := Sample.incident_in "F25065067" "East Caln Township" in
  filter_incidents cfg [a; b] = [b]
  /\ ~ In a (filter_incidents cfg [a; b]).
Proof.
  cbv zeta. split; [vm_compute; reflexivity|].
  apply (X11_no_municipality_never_passes "East Caln"
           (Sample.settings (target_filters_of "East Caln"))).
  - reflexivity.
  - vm_compute. discriminate.
  - reflexivity.
Defined.

(** ** The poll loop *)

Lemma sleeps_app a b : sleeps (a ++ b) = (sleeps a + sleeps b)%nat.
Proof. unfold sleeps. now rewrite List.filter_app, length_app. Qed.

Lemma get_incidents_trace w h incs h' :
  get_incidents w h = (Val incs, h') ->
  exists t, h' = h ++ t
            /\ Forall (fun e => match e with EvGet _ | EvNow => True | _ => False end) t.
Proof.
  unfold get_incidents, bind.
  destruct (try_fetch_cases w URL h) as [(r & _ & _ & ->)|(_ & ->)].
  - unfold datetime_now. intros Hloop. apply scan_loop_trace in Hloop.
    exists ([EvGet URL; EvNow] ++ fetched incs). split.
    + rewrite Hloop, <- !app_assoc. reflexivity.
    + apply Forall_app. split; [repeat constructor|].
      unfold fetched. apply Forall_forall. intros e He.
      apply list_elem_of_In, in_map_iff in He as (url & <- & _). exact I.
  - intros [= <- <-]. exists [EvGet URL]. split; [reflexivity | repeat constructor].
Qed.

Lemma quiet_events cfg t :
  Forall (fun e => match e with EvGet _ | EvNow => True | _ => False end) t ->
  Forall (cycle_event cfg) t /\ sleeps t = 0%nat /\ published t = [].
Proof.
  induction 1 as [|e t He _ (IH1 & IH2 & IH3)]; [repeat split; constructor|].
  destruct e; try contradiction; (split; [constructor; [exact I | exact IH1]|]);
    split; assumption.
Qed.

(** What one turn of [while True] adds to the trace. *)
Lemma poll_cycle_trace w cfg h :
  exists t,
    poll_cycle w cfg h = (Val tt, h ++ t)
    /\ sleeps t = 1%nat
    /\ (length (published t) <= 1)%nat
    /\ Forall (cycle_event cfg) t.
Proof.
  destruct (poll_cycle_cases w cfg h)
    as [(_ & ->)|(_ & all & h1 & tail & Hget & Htail & ->)].
  - eexists [_; _]. rewrite <- app_assoc. split; [reflexivity|].
    split; [reflexivity|]. split; [cbn; lia|].
    repeat constructor.
  - destruct (get_incidents_trace _ _ _ _ Hget) as (t & -> & Hquiet).
    destruct (quiet_events cfg t Hquiet) as (Hev & Hsl & Hpub).
    eexists ([_] ++ t ++ [_; _] ++ tail ++ [_]).
    split; [rewrite <- !app_assoc; reflexivity|].
    split; [|split].
    + rewrite !sleeps_app, Hsl. destruct Htail as [->| ->]; reflexivity.
    + rewrite !published_app, Hpub. destruct Htail as [->| ->]; cbn; lia.
    + repeat (apply Forall_app; split); try exact Hev;
        destruct Htail as [->| ->]; repeat constructor.
Qed.

Lemma poll_cycles_trace w cfg n : forall h,
  exists t,
    poll_cycles w cfg n h = (Val tt, h ++ t)
    /\ sleeps t = n
    /\ (length (published t) <= n)%nat
    /\ Forall (cycle_event cfg) t.
Proof.
  induction n as [|n IH]; intros h; cbn [poll_cycles].
  - exists []. rewrite app_nil_r. repeat split; constructor.
  - unfold bind. destruct (poll_cycle_trace w cfg h) as (t1 & -> & Hs1 & Hp1 & He1).
    destruct (IH (h ++ t1)) as (t2 & -> & Hs2 & Hp2 & He2).
    exists (t1 ++ t2). rewrite app_assoc. split; [reflexivity|].
    rewrite sleeps_app, published_app, length_app.
    split; [lia|]. split; [lia|]. now apply Forall_app.
Qed.

(** X12.  When the connection to the bus fails, with whatever exception, the
    turn asks the network nothing and publishes nothing: it sleeps the poll
    interval and ends, and the loop goes on with the next turn. *)
Theorem X12_connection_failure_skips_the_cycle w cfg h e :
  mqtt_connect w h = Some e ->
  poll_cycle w cfg h
  = (Val tt, h ++ [EvConnect (MQTT_HOST cfg) (MQTT_PORT cfg);
                   EvSleep (POLL_INTERVAL cfg)])
  /\ forall n,
       poll_cycles w cfg (S n) h
       = poll_cycles w cfg n
           (h ++ [EvConnect (MQTT_HOST cfg) (MQTT_PORT cfg);
                  EvSleep (POLL_INTERVAL cfg)]).
Proof.
  intros Hconn.
  assert (Hcycle : poll_cycle w cfg h
                   = (Val tt, h ++ [EvConnect (MQTT_HOST cfg) (MQTT_PORT cfg);
                                    EvSleep (POLL_INTERVAL cfg)])).
  { destruct (poll_cycle_cases w cfg h) as [(_ & ->)|(Hnone & _)]; [|congruence].
    now rewrite <- app_assoc. }
  split; [exact Hcycle|].
  intros n. cbn [poll_cycles]. unfold bind at 1. now rewrite Hcycle.
Qed.

Lemma X12_connection_failure_skips_the_cycle_witness :
  let w := Outage.bus_down (Sample.at_time 2025 11 29 8 0 0) in
  let cfg := Sample.settings ∅ in
  poll_cycle w cfg []
  = (Val tt, [] ++ [EvConnect (MQTT_HOST cfg) (MQTT_PORT cfg);
                    EvSleep (POLL_INTERVAL cfg)])
  /\ forall n,
       poll_cycles w cfg (S n) []
       = poll_cycles w cfg n
           ([] ++ [EvConnect (MQTT_HOST cfg) (MQTT_PORT cfg);
                   EvSleep (POLL_INTERVAL cfg)]).
Proof.
  apply (X12_connection_failure_skips_the_cycle
           (Outage.bus_down (Sample.at_time 2025 11 29 8 0 0))
           (Sample.settings ∅) [] OSError).
  reflexivity.
Defined.


(** X14.  In a run of [main_loop] the credentials are set once, before the
    first turn, and only when a user name is configured; after that every
    connection goes to the configured host and port, every payload goes to
    the configured topic with the retain flag, and there is at most one
    payload a turn. *)
Theorem X14_bus_calls_follow_the_settings w cfg n h :
  exists t,
    main_loop w cfg n h
    = (Val tt,
       h ++ (if String.eqb (MQTT_USERNAME cfg) "" then []
             else [EvUsernamePwSet (MQTT_USERNAME cfg) (MQTT_PASSWORD cfg)]) ++ t)
    /\ (length (published t) <= n)%nat
    /\ Forall (cycle_event cfg) t.
Proof.
  unfold main_loop, bind.
  destruct (String.eqb (MQTT_USERNAME cfg) ""); cbn [ret].
  - destruct (poll_cycles_trace w cfg n h) as (t & -> & _ & Hp & He).
    exists t. auto.
  - destruct (poll_cycles_trace w cfg n
                (h ++ [EvUsernamePwSet (MQTT_USERNAME cfg) (MQTT_PASSWORD cfg)]))
      as (t & -> & _ & Hp & He).
    exists t. rewrite <- app_assoc. auto.
Qed.

(** X15.  In a connected turn the payload is handed to the bus after the
    scan, stamped with a clock reading taken after it.  When [publish]
    raises, the turn does not call [disconnect]; it still sleeps and ends
    normally.  When [publish] returns, [disconnect] is called before the
    sleep. *)
Theorem X15_failed_publish_skips_disconnect w cfg h all h1 :
  mqtt_connect w h = None ->
  get_incidents w (h ++ [EvConnect (MQTT_HOST cfg) (MQTT_PORT cfg)]) = (Val all, h1) ->
  let p := {| last_update := clock w h1;
              total_incidents := length all;
              filtered_incidents := length (filter_incidents cfg all);
              incidents := filter_incidents cfg all |} in
  (forall e, mqtt_publish w (h1 ++ [EvNow]) = Some e ->
             poll_cycle w cfg h
             = (Val tt, h1 ++ [EvNow; EvPublish (MQTT_TOPIC cfg) p true;
                               EvSleep (POLL_INTERVAL cfg)]))
  /\ (mqtt_publish w (h1 ++ [EvNow]) = None ->
      poll_cycle w cfg h
      = (Val tt, h1 ++ [EvNow; EvPublish (MQTT_TOPIC cfg) p true; EvDisconnect;
                        EvSleep (POLL_INTERVAL cfg)])).
Proof.
  intros Hconn Hget p.
  unfold poll_cycle, cycle_body, try_except, bind, call, sleep, ret, raise,
    datetime_now.
  rewrite Hconn, Hget. fold p. split.
  - intros e ->. rewrite <- !app_assoc. reflexivity.
  - intros ->. destruct (mqtt_disconnect w _); rewrite <- !app_assoc; reflexivity.
Qed.

Lemma X15_failed_publish_skips_disconnect_witness :
  let now := Sample.at_time 2025 11 29 8 0 0 in
  let w := Outage.publish_fails now in
  let cfg := Sample.settings ∅ in
  exists all h1,
    get_incidents w ([] ++ [EvConnect (MQTT_HOST cfg) (MQTT_PORT cfg)]) = (Val all, h1)
    /\ length all = 1%nat
    /\ poll_cycle w cfg []
       = (Val tt,
          h1 ++ [EvNow;
                 EvPublish (MQTT_TOPIC cfg)
                   {| last_update := clock w h1;
                      total_incidents := length all;
                      filtered_incidents := length (filter_incidents cfg all);
                      incidents := filter_incidents cfg all |} true;
                 EvSleep (POLL_INTERVAL cfg)]).
Proof.
  cbv zeta. eexists _, _. split; [vm_compute; reflexivity|].
  split; [reflexivity|].
  eapply (proj1 (X15_failed_publish_skips_disconnect
                   (Outage.publish_fails (Sample.at_time 2025 11 29 8 0 0))
                   (Sample.settings ∅) [] _ _ eq_refl _) OtherException).
  reflexivity.
  Unshelve. vm_compute. reflexivity.
Defined.

(** X16.  When the primary page is fetched, [get_incidents] works on that
    one page: the incidents come from disjoint blocks of the page's
    non-blank lines, the cutoff is eight hours before the clock reading
    taken after the fetch, and the comments addresses are those that the
    page's own anchors record. *)
Theorem X16_get_incidents_reads_one_page w h r :
  http_get w h URL = Reply r ->
  ~ (400 <= status_code r < 600)%Z ->
  exists incs starts,
    get_incidents w h = (Val incs, h ++ [EvGet URL; EvNow] ++ fetched incs)
    /\ Forall2 (from_block (nonblank_lines (text (body r)))
                  (cutoff_of (clock w (h ++ [EvGet URL])))) starts incs
    /\ spaced 0 starts
    /\ Forall (derived_fields (links_of_anchors (urljoin w) (anchors (body r)))) incs.
Proof.
  intros Hr Hst.
  destruct (get_incidents_val w h) as (incs & h' & Hget).
  exists incs. revert Hget. unfold get_incidents, bind.
  destruct (try_fetch_cases w URL h) as [(r' & Hr' & _ & ->)|(Hfail & _)].
  - assert (r' = r) by congruence. subst r'. unfold datetime_now. intros Hloop.
    destruct (scan_loop_blocks _ _ _ _ _ _ _ _ Hloop) as (starts & Hall & Hsp & _).
    exists starts. split; [|split; [exact Hall|split; [exact Hsp|]]].
    + rewrite Hloop. f_equal. apply scan_loop_trace in Hloop.
      rewrite Hloop, <- !app_assoc. reflexivity.
    + eapply scan_loop_derived_fields. exact Hloop.
  - unfold fetch_fails in Hfail. rewrite Hr in Hfail. contradiction.
Qed.

Lemma X16_get_incidents_reads_one_page_witness :
  let now := Sample.at_time 2025 11 29 8 0 0 in
  let w := Sample.world now 200 200 in
  exists incs starts,
    get_incidents w [] = (Val incs, [] ++ [EvGet URL; EvNow] ++ fetched incs)
    /\ Forall2 (from_block (nonblank_lines (text Sample.main_page))
                  (cutoff_of (clock w ([] ++ [EvGet URL])))) starts incs
    /\ spaced 0 starts
    /\ Forall (derived_fields
                 (links_of_anchors (urljoin w) (anchors Sample.main_page))) incs.
Proof.
  apply (X16_get_incidents_reads_one_page
           (Sample.world (Sample.at_time 2025 11 29 8 0 0) 200 200) []
           {| status_code := 200; body := Sample.main_page |}).
  - reflexivity.
  - cbn [status_code]. lia.
Defined.

(** X17.  A page with fewer than six lines, or with no line of the ID
    shape, gives no incident, and its scan asks the network nothing. *)
Theorem X17_no_block_no_incident w lines links cutoff fuel h incs h' :
  (length lines < 6)%nat \/ Forall (fun l => id_re_match l = false) lines ->
  scan_loop w lines links cutoff fuel scan_start h = (Val incs, h') ->
  incs = [] /\ h' = h.
Proof.
  intros Hpage Hloop.
  assert (Hnil : incs = []).
  { destruct (scan_loop_blocks _ _ _ _ _ _ _ _ Hloop) as (starts & Hall & Hsp & Hend).
    destruct Hall as [|i inc starts incs (Hlen & Hid & _) _]; [reflexivity|].
    exfalso. destruct Hpage as [Hshort|Hnoid]; [lia|].
    rewrite Forall_forall in Hnoid.
    destruct (lookup_lt_is_Some_2 lines i) as [l Hl]; [lia|].
    unfold line_at in Hid. rewrite Hl in Hid. cbn in Hid.
    rewrite (Hnoid l) in Hid; [discriminate|].
    apply list_elem_of_lookup. eauto. }
  split; [exact Hnil|]. apply scan_loop_trace in Hloop.
  rewrite Hloop, Hnil. cbn. now rewrite app_nil_r.
Qed.

Lemma X17_no_block_no_incident_witness :
  let w := Sample.world (Sample.at_time 2025 11 29 8 0 0) 200 200 in
  exists incs h',
    scan_loop w ["Fire Incidents"; "Incident No."; "Last Updated 08:00"]
      Sample.links 0 3 scan_start [] = (Val incs, h')
    /\ (incs = [] /\ h' = []).
Proof.
  cbv zeta. eexists _, _. split; [vm_compute; reflexivity|].
  eapply (X17_no_block_no_incident
            (Sample.world (Sample.at_time 2025 11 29 8 0 0) 200 200)
            ["Fire Incidents"; "Incident No."; "Last Updated 08:00"]
            Sample.links 0 3 []).
  - left. vm_compute. lia.
  - vm_compute. reflexivity.
Defined.
